(** * Automaker: the Gemini CLI provider and the auto-mode service

    A shallow embedding of [apps/server/src/providers/gemini-provider.ts]
    and of the auto-mode service that the server's unit tests exercise,
    with the properties the specification states about them.

    - [Js]       the fragment of JavaScript the provider relies on: JSON
                 values, property reads, truthiness, completions.
    - [Gemini]   the provider, function by function.
    - [AutoMode] the scheduler's running-features table and loop flag. *)

From Stdlib Require Import String Ascii List Bool ZArith Lia DecimalString.
Import ListNotations.
Open Scope string_scope.

(* ===================================================================== *)
(** ** JavaScript values and completions *)
(* ===================================================================== *)

Module Js.

(** What [JSON.parse] can produce, plus [undefined], which property reads
    produce.  A number is held as the text JavaScript prints for it
    ([Number::toString]); the provider only ever tests numbers for
    truthiness or interpolates them into strings. *)
#[warnings="-register-all"]
Inductive value : Type :=
| VUndefined
| VNull
| VBool (b : bool)
| VNum (repr : string)
| VStr (s : string)
| VArr (items : list value)
| VObj (props : list (string * value)).

(** What a [throw] carries.  [Raised] is an object raised by code outside
    the provider (the subprocess stream, a helper of another package):
    its fields record what the provider's handler inspects. *)
Record RaisedObject : Type := {
  instanceOfError : bool;                 (* error instanceof Error *)
  raisedName : string;                    (* error.name *)
  raisedMessage : string;                 (* error.message *)
  raisedStderr : option (option string);  (* None: no 'stderr' property;
                                             Some None: property holding undefined *)
  raisedExitCode : option Z               (* None: exitCode null or undefined *)
}.

Inductive GeminiErrorCode : Type :=
| NOT_INSTALLED
| NOT_AUTHENTICATED
| RATE_LIMITED
| MODEL_UNAVAILABLE
| NETWORK_ERROR
| PROCESS_CRASHED
| TIMEOUT
| UNKNOWN.

Inductive Thrown : Type :=
| TypeError (message : string)           (* raised by the runtime *)
| PlainError (message : string)          (* new Error(message) *)
| GeminiError (code : GeminiErrorCode) (message : string)
              (recoverable : bool) (suggestion : option string)
| Raised (r : RaisedObject).

(** [error instanceof Error] *)
Definition isErrorInstance (error : Thrown) : bool :=
  match error with
  | Raised r => instanceOfError r
  | _ => true
  end.

(** ['stderr' in error], with the property's value. *)
Definition stderrOf (error : Thrown) : option (option string) :=
  match error with
  | Raised r => raisedStderr r
  | _ => None
  end.

Definition messageOf (error : Thrown) : string :=
  match error with
  | TypeError m | PlainError m | GeminiError _ m _ _ => m
  | Raised r => raisedMessage r
  end.

Definition exitCodeOf (error : Thrown) : option Z :=
  match error with
  | Raised r => raisedExitCode r
  | _ => None
  end.

(** The result of evaluating an expression or a call. *)
Inductive Completion (A : Type) : Type :=
| Normal (a : A)
| Throw (e : Thrown).
Arguments Normal {A} a.
Arguments Throw {A} e.

Definition bind {A B} (c : Completion A) (k : A -> Completion B) : Completion B :=
  match c with
  | Normal a => k a
  | Throw e => Throw e
  end.

Notation "x <- c ;; k" := (bind c (fun x => k))
  (at level 61, c at next level, right associativity).

Fixpoint mapM {A B} (f : A -> Completion B) (l : list A) : Completion (list B) :=
  match l with
  | [] => Normal []
  | a :: rest =>
      b <- f a ;;
      bs <- mapM f rest ;;
      Normal (b :: bs)
  end.

(** ToBoolean.  [-0] prints as ["0"]. *)
Definition truthy (v : value) : bool :=
  match v with
  | VUndefined | VNull => false
  | VBool b => b
  | VNum r => negb ((r =? "0") || (r =? "NaN"))
  | VStr s => negb (s =? "")
  | VArr _ | VObj _ => true
  end.

(** [a || b] on values. *)
Definition orElse (a b : value) : value := if truthy a then a else b.

(** [v === 'lit'] for a string literal. *)
Definition isStr (v : value) (lit : string) : bool :=
  match v with
  | VStr s => s =? lit
  | _ => false
  end.

Definition nullish (v : value) : bool :=
  match v with
  | VUndefined | VNull => true
  | _ => false
  end.

Fixpoint lookup (key : string) (props : list (string * value)) : value :=
  match props with
  | [] => VUndefined
  | (k, v) :: rest => if k =? key then v else lookup key rest
  end.

(** [v.key], for the keys the provider reads ([type], [role], [content],
    [session_id], [tool_name], [tool_id], [parameters], [status], [output],
    [error], [stats], [todos], [description], [security], [auth],
    [selectedType]): none of them is inherited from a prototype, so the
    read gives an own property of an object, [undefined] on every other
    value, and a TypeError on [null] and [undefined]. *)
Definition getField (v : value) (key : string) : Completion value :=
  match v with
  | VUndefined =>
      Throw (TypeError ("Cannot read properties of undefined (reading '" ++ key ++ "')"))
  | VNull =>
      Throw (TypeError ("Cannot read properties of null (reading '" ++ key ++ "')"))
  | VObj props => Normal (lookup key props)
  | _ => Normal VUndefined
  end.

(** [v?.key] *)
Definition getFieldOpt (v : value) (key : string) : value :=
  match v with
  | VObj props => lookup key props
  | _ => VUndefined
  end.

(** [Object.prototype.hasOwnProperty.call(obj, key)] on a parsed object. *)
Definition hasOwn (key : string) (props : list (string * value)) : bool :=
  existsb (fun kv => fst kv =? key) props.

Definition cannotConvert : Thrown :=
  TypeError "Cannot convert object to primitive value".

(** ToString, as template literals and computed property keys apply it.
    A parsed object converts through the inherited [toString] to
    ["[object Object]"], unless it has a [toString] entry of its own:
    such an entry is never callable, [valueOf] gives the object back, and
    the conversion raises a TypeError.  An array converts through
    [Array.prototype.join], which prints [null] and [undefined] elements
    as the empty string and converts the others, from left to right. *)
Fixpoint toString (v : value) : Completion string :=
  match v with
  | VUndefined => Normal "undefined"
  | VNull => Normal "null"
  | VBool true => Normal "true"
  | VBool false => Normal "false"
  | VNum r => Normal r
  | VStr s => Normal s
  | VArr items =>
      parts <- (fix joined (l : list value) : Completion (list string) :=
                  match l with
                  | [] => Normal []
                  | x :: rest =>
                      s <- match x with
                           | VUndefined | VNull => Normal ""
                           | _ => toString x
                           end ;;
                      more <- joined rest ;;
                      Normal (s :: more)
                  end) items ;;
      Normal (String.concat "," parts)
  | VObj props =>
      if hasOwn "toString" props then Throw cannotConvert
      else Normal "[object Object]"
  end.

(** [hay.includes(needle)] *)
Fixpoint includes (hay needle : string) : bool :=
  if String.prefix needle hay then true
  else match hay with
       | EmptyString => false
       | String _ rest => includes rest needle
       end.

(** [s.startsWith(p)] *)
Definition startsWith (s p : string) : bool := String.prefix p s.

(** The members every object literal inherits from [Object.prototype]. *)
Definition objectPrototypeKeys : list string :=
  [ "constructor"; "hasOwnProperty"; "isPrototypeOf"; "propertyIsEnumerable";
    "toLocaleString"; "toString"; "valueOf"; "__proto__";
    "__defineGetter__"; "__defineSetter__"; "__lookupGetter__"; "__lookupSetter__" ].

End Js.

(* ===================================================================== *)
(** ** The Gemini provider *)
(* ===================================================================== *)

Module Gemini.
Import Js.

(** *** Normalized messages *)

(** The outcome of [GEMINI_TOOL_NAME_MAP[name] || name]: a value, or a
    member of [Object.prototype] reached through the map's prototype. *)
Inductive ToolName : Type :=
| Named (v : value)
| Inherited (key : string).

Inductive ContentBlock : Type :=
| TextBlock (text : value)
| ToolUseBlock (name : ToolName) (tool_use_id : value) (input : value)
| ToolResultBlock (tool_use_id : value) (content : value).

Inductive MessageBody : Type :=
| AssistantMessage (content : list ContentBlock)   (* type: 'assistant' *)
| ResultSuccess                                    (* type: 'result', subtype: 'success' *)
| ErrorMessage (error : value).                    (* type: 'error' *)

Record ProviderMessage : Type := {
  session_id : value;
  body : MessageBody
}.

(** *** Tool name normalization *)

Definition GEMINI_TOOL_NAME_MAP : list (string * string) :=
  [ ("write_todos", "TodoWrite");
    ("read_file", "Read");
    ("read_many_files", "Read");
    ("replace", "Edit");
    ("write_file", "Write");
    ("run_shell_command", "Bash");
    ("search_file_content", "Grep");
    ("glob", "Glob");
    ("list_directory", "Ls");
    ("web_fetch", "WebFetch");
    ("google_web_search", "WebSearch") ].

Fixpoint assoc (key : string) (table : list (string * string)) : option string :=
  match table with
  | [] => None
  | (k, v) :: rest => if k =? key then Some v else assoc key rest
  end.

(** [GEMINI_TOOL_NAME_MAP[geminiToolName] || geminiToolName].  The key of
    the read is [ToString geminiToolName], which can raise; all the map's
    own values are non-empty strings and all inherited members are
    truthy. *)
Definition normalizeGeminiToolName (geminiToolName : value) : Completion ToolName :=
  key <- toString geminiToolName ;;
  match assoc key GEMINI_TOOL_NAME_MAP with
  | Some standard => Normal (Named (VStr standard))
  | None =>
      if existsb (String.eqb key) objectPrototypeKeys then Normal (Inherited key)
      else Normal (Named geminiToolName)
  end.

(** One element of [input.todos.map(...)]. *)
Definition normalizeTodo (todo : value) : Completion value :=
  description <- getField todo "description" ;;
  status <- getField todo "status" ;;
  Normal (VObj
    [ ("content", orElse description (VStr ""));
      ("status", if isStr status "cancelled" then VStr "completed" else status);
      ("activeForm", orElse description (VStr "")) ]).

(** [toolName === 'write_todos' && Array.isArray(input.todos)]: the read
    of [input.todos] happens only when the name matches, and the match on
    [VArr] is [Array.isArray]. *)
Definition normalizeGeminiToolInput (toolName input : value) : Completion value :=
  if isStr toolName "write_todos" then
    todos <- getField input "todos" ;;
    match todos with
    | VArr items =>
        mapped <- mapM normalizeTodo items ;;
        Normal (VObj [ ("todos", VArr mapped) ])
    | _ => Normal input
    end
  else Normal input.

(** *** normalizeEvent *)

Definition assistant (sid : value) (block : ContentBlock) : ProviderMessage :=
  {| session_id := sid; body := AssistantMessage [ block ] |}.

(** The [switch] compares [geminiEvent.type] with [===].  The template
    literals handed to [logger.debug] are evaluated whatever the log
    level: they convert the interpolated values to strings, which can
    raise; the texts themselves are not kept. *)
Definition normalizeEvent (event : value) : Completion (option ProviderMessage) :=
  type <- getField event "type" ;;
  if isStr type "init" then
    (* `Gemini init event: session=${...session_id}, model=${...model}` *)
    sid <- getField event "session_id" ;;
    _ <- toString sid ;;
    model <- getField event "model" ;;
    _ <- toString model ;;
    Normal None
  else if isStr type "message" then
    role <- getField event "role" ;;
    if isStr role "user" then Normal None
    else if isStr role "assistant" then
      sid <- getField event "session_id" ;;
      content <- getField event "content" ;;
      Normal (Some (assistant sid (TextBlock content)))
    else Normal None
  else if isStr type "tool_use" then
    tool_name <- getField event "tool_name" ;;
    normalizedName <- normalizeGeminiToolName tool_name ;;
    parameters <- getField event "parameters" ;;
    normalizedInput <- normalizeGeminiToolInput tool_name parameters ;;
    sid <- getField event "session_id" ;;
    tool_id <- getField event "tool_id" ;;
    Normal (Some (assistant sid (ToolUseBlock normalizedName tool_id normalizedInput)))
  else if isStr type "tool_result" then
    status <- getField event "status" ;;
    output <- getField event "output" ;;
    content <- (if isStr status "error"
                then text <- toString output ;; Normal (VStr ("[ERROR] " ++ text))
                else Normal output) ;;
    sid <- getField event "session_id" ;;
    tool_id <- getField event "tool_id" ;;
    Normal (Some (assistant sid (ToolResultBlock tool_id content)))
  else if isStr type "result" then
    status <- getField event "status" ;;
    if isStr status "error" then
      sid <- getField event "session_id" ;;
      error <- getField event "error" ;;
      Normal (Some {| session_id := sid;
                      body := ErrorMessage (orElse error (VStr "Unknown error")) |})
    else
      (* `Gemini result: status=${...status}, tokens=${...stats?.total_tokens}` *)
      _ <- toString status ;;
      stats <- getField event "stats" ;;
      _ <- toString (getFieldOpt stats "total_tokens") ;;
      sid <- getField event "session_id" ;;
      Normal (Some {| session_id := sid; body := ResultSuccess |})
  else if isStr type "error" then
    sid <- getField event "session_id" ;;
    error <- getField event "error" ;;
    Normal (Some {| session_id := sid;
                    body := ErrorMessage (orElse error (VStr "Unknown error")) |})
  else
    (* `Unknown Gemini event type: ${geminiEvent.type}` *)
    _ <- toString type ;;
    Normal None.

(** *** Execution options, argv *)

Record PromptBlock : Type := {
  blockType : string;            (* p.type *)
  blockText : option string      (* p.text, when present *)
}.

Inductive Prompt : Type :=
| PromptString (text : string)
| PromptArray (blocks : list PromptBlock)
| PromptInvalid.                 (* neither a string nor an array *)

Record ExecuteOptions : Type := {
  prompt : Prompt;
  model : option string;
  cwd : option string
}.

(** Truthiness of an optional string: [undefined] and [''] are falsy. *)
Definition present (o : option string) : bool :=
  match o with
  | Some s => negb (s =? "")
  | None => false
  end.

Definition newline : string := String (ascii_of_nat 10) EmptyString.

Definition extractPromptText (options : ExecuteOptions) : Completion string :=
  match prompt options with
  | PromptString text => Normal text
  | PromptArray blocks =>
      Normal (String.concat newline
        (map (fun p => match blockText p with Some t => t | None => "" end)
          (filter (fun p => (blockType p =? "text") && present (blockText p)) blocks)))
  | PromptInvalid => Throw (PlainError "Invalid prompt format")
  end.

Definition buildCliArgs (options : ExecuteOptions) : list string :=
  let bareModel := if present (model options)
                   then match model options with Some m => m | None => "" end
                   else "2.5-flash" in
  let cliArgs := [ "--output-format"; "stream-json" ] in
  let cliArgs :=
    if negb (bareModel =? "") && negb (bareModel =? "auto") then
      let cliModel := if startsWith bareModel "gemini-" then bareModel
                      else "gemini-" ++ bareModel in
      (cliArgs ++ [ "--model"; cliModel ])%list
    else cliArgs in
  let cliArgs := (cliArgs ++ [ "--sandbox"; "false" ])%list in
  let cliArgs := (cliArgs ++ [ "--approval-mode"; "yolo" ])%list in
  let cliArgs :=
    if present (cwd options) then
      (cliArgs ++ [ "--include-directories";
                    match cwd options with Some d => d | None => "" end ])%list
    else cliArgs in
  cliArgs.

(** The argv [executeQuery] hands to the subprocess: [buildCliArgs]
    followed by the prompt text as last positional argument. *)
Definition queryArgv (options : ExecuteOptions) : Completion (list string) :=
  promptText <- extractPromptText options ;;
  Normal (buildCliArgs options ++ [ promptText ])%list.

(** *** Collaborators outside the provider *)

(** The stream [spawnJSONLProcess] produces: parsed lines, then a normal
    end or a raised failure. *)
Record Stream : Type := {
  events : list value;
  failure : option Thrown
}.

(** Functions the provider calls that live in other packages or in the
    JavaScript runtime.
    - [toLowerCase]: [String.prototype.toLowerCase].
    - [isAbortError]: the helper of [@automaker/utils].
    - [validateBareModelId]: the check of [@automaker/types], called with
      [options.model].
    - [spawnJSONLProcess]: [buildSubprocessOptions] of the base class
      followed by the spawner of [@automaker/platform]. *)
Class Host : Type := {
  toLowerCase : string -> string;
  isAbortError : Thrown -> bool;
  validateBareModelId : option string -> Completion unit;
  spawnJSONLProcess : ExecuteOptions -> list string -> Stream
}.

(** *** mapError *)

(** A double quote, for the texts that hold one. *)
Definition dq : string := String (ascii_of_nat 34) EmptyString.

Record CliErrorInfo : Type := {
  code : GeminiErrorCode;
  message : string;
  recoverable : bool;
  suggestion : option string
}.

(** [`${exitCode}`]: exit codes are integers far below 10^21, which
    JavaScript prints in plain decimal. *)
Definition showExitCode (exitCode : option Z) : string :=
  match exitCode with
  | Some n => NilZero.string_of_int (Z.to_int n)
  | None => "null"
  end.

Definition exitCodeIs (exitCode : option Z) (n : Z) : bool :=
  match exitCode with
  | Some c => Z.eqb c n
  | None => false
  end.

(** The five heuristics, in the order [mapError] tries them, on the
    lower-cased stderr text. *)
Definition authHeuristic (lower : string) : bool :=
  includes lower "not authenticated" ||
  includes lower "please log in" ||
  includes lower "unauthorized" ||
  includes lower "login required" ||
  includes lower "error authenticating" ||
  includes lower "loadcodeassist" ||
  (includes lower "econnrefused" && includes lower "8888").

Definition rateLimitHeuristic (lower : string) : bool :=
  includes lower "rate limit" ||
  includes lower "too many requests" ||
  includes lower "429" ||
  includes lower "quota exceeded".

Definition modelHeuristic (lower : string) : bool :=
  includes lower "model not available" ||
  includes lower "invalid model" ||
  includes lower "unknown model" ||
  includes lower "modelnotfounderror" ||
  includes lower "model not found" ||
  (includes lower "not found" && includes lower "404").

Definition networkHeuristic (lower : string) : bool :=
  includes lower "network" ||
  includes lower "connection" ||
  includes lower "econnrefused" ||
  includes lower "timeout".

Definition crashHeuristic (lower : string) (exitCode : option Z) : bool :=
  exitCodeIs exitCode 137 || includes lower "killed" || includes lower "sigterm".

Section WithHost.
Context {host : Host}.

Definition mapError (stderr : string) (exitCode : option Z) : CliErrorInfo :=
  let lower := toLowerCase stderr in
  if authHeuristic lower then
    {| code := NOT_AUTHENTICATED;
       message := "Gemini CLI is not authenticated";
       recoverable := true;
       suggestion := Some ("Run " ++ dq ++ "gemini" ++ dq
                           ++ " interactively to log in, or set GEMINI_API_KEY environment variable") |}
  else if rateLimitHeuristic lower then
    {| code := RATE_LIMITED;
       message := "Gemini API rate limit exceeded";
       recoverable := true;
       suggestion := Some "Wait a few minutes and try again. Free tier: 60 req/min, 1000 req/day" |}
  else if modelHeuristic lower then
    {| code := MODEL_UNAVAILABLE;
       message := "Requested model is not available";
       recoverable := true;
       suggestion := Some ("Try using " ++ dq ++ "gemini-2.5-flash" ++ dq
                           ++ " or select a different model") |}
  else if networkHeuristic lower then
    {| code := NETWORK_ERROR;
       message := "Network connection error";
       recoverable := true;
       suggestion := Some "Check your internet connection and try again" |}
  else if crashHeuristic lower exitCode then
    {| code := PROCESS_CRASHED;
       message := "Gemini CLI process was terminated";
       recoverable := true;
       suggestion := Some "The process may have run out of memory. Try a simpler task." |}
  else
    {| code := UNKNOWN;
       message := if negb (stderr =? "") then stderr
                  else "Gemini CLI exited with code " ++ showExitCode exitCode;
       recoverable := false;
       suggestion := None |}.

(** *** executeQuery *)

Definition createError (c : GeminiErrorCode) (msg : string)
    (rec : bool) (sugg : option string) : Thrown :=
  GeminiError c msg rec sugg.

Definition getInstallInstructions : string :=
  "Install with: npm install -g @google/gemini-cli (or visit https://github.com/google-gemini/gemini-cli)".

(** One iteration of the [for await] body: the session id after the
    event, and the message yielded for it, if any. *)
Definition stepEvent (sessionId event : value)
    : Completion (value * option ProviderMessage) :=
  type <- getField event "type" ;;
  sessionId <- (if isStr type "init" then
                  sid <- getField event "session_id" ;;
                  (* `Session started: ${sessionId}, model: ${initEvent.model}` *)
                  _ <- toString sid ;;
                  model <- getField event "model" ;;
                  _ <- toString model ;;
                  Normal sid
                else Normal sessionId) ;;
  normalized <- normalizeEvent event ;;
  match normalized with
  | Some msg =>
      let msg :=
        if negb (truthy (session_id msg)) && truthy sessionId
        then {| session_id := sessionId; body := body msg |}
        else msg in
      Normal (sessionId, Some msg)
  | None => Normal (sessionId, None)
  end.

(** The [try] block: the messages yielded, and what it raised, if
    anything.  A throw inside the body abandons the rest of the stream. *)
Fixpoint consume (sessionId : value) (evs : list value) (ending : option Thrown)
    : list ProviderMessage * option Thrown :=
  match evs with
  | [] => ([], ending)
  | event :: rest =>
      match stepEvent sessionId event with
      | Throw e => ([], Some e)
      | Normal (sessionId', None) => consume sessionId' rest ending
      | Normal (sessionId', Some msg) =>
          let (more, raised) := consume sessionId' rest ending in
          (msg :: more, raised)
      end
  end.

(** The [catch] block: the calls it makes to [mapError], and how the
    generator completes. *)
Definition catchBlock (error : Thrown)
    : list (string * option Z) * Completion unit :=
  if isAbortError error then ([], Normal tt)
  else
    match isErrorInstance error, stderrOf error with
    | true, Some stderr =>
        let text := if present stderr
                    then match stderr with Some s => s | None => "" end
                    else messageOf error in
        let errorInfo := mapError text (exitCodeOf error) in
        ([ (text, exitCodeOf error) ],
         Throw (createError (code errorInfo) (message errorInfo)
                            (recoverable errorInfo) (suggestion errorInfo)))
    | _, _ => ([], Throw error)
    end.

(** One run of the generator, consumed to its end. *)
Record QueryRun : Type := {
  yielded : list ProviderMessage;
  mapErrorCalls : list (string * option Z);
  outcome : Completion unit
}.

(** What [executeQuery] does before it spawns the subprocess: the model
    id check, the installation check and the argv.  [cliPath] is
    [this.cliPath] after [ensureCliDetected]. *)
Definition prepare (cliPath : option string) (options : ExecuteOptions)
    : Completion (list string) :=
  _ <- validateBareModelId (model options) ;;
  _ <- (if present cliPath then Normal tt
        else Throw (createError NOT_INSTALLED "Gemini CLI is not installed"
                                true (Some getInstallInstructions))) ;;
  queryArgv options.

Definition executeQuery (cliPath : option string) (options : ExecuteOptions)
    : QueryRun :=
  match prepare cliPath options with
  | Throw e => {| yielded := []; mapErrorCalls := []; outcome := Throw e |}
  | Normal cliArgs =>
      let stream := spawnJSONLProcess options cliArgs in
      let (msgs, raised) := consume VUndefined (events stream) (failure stream) in
      match raised with
      | None => {| yielded := msgs; mapErrorCalls := []; outcome := Normal tt |}
      | Some error =>
          let (calls, result) := catchBlock error in
          {| yielded := msgs; mapErrorCalls := calls; outcome := result |}
      end
  end.

End WithHost.

(** *** checkAuth *)

Record Env : Type := {
  GEMINI_API_KEY : option string;
  GOOGLE_APPLICATION_CREDENTIALS : option string;
  GOOGLE_CLOUD_PROJECT : option string
}.

(** What reading [~/.gemini/settings.json] comes to. *)
Inductive SettingsFile : Type :=
| NoSettingsFile                      (* fs.access rejects *)
| UnreadableSettings                  (* fs.readFile rejects or JSON.parse throws *)
| ParsedSettings (settings : value).

Inductive AuthMethod : Type :=
| google_login
| api_key
| vertex_ai
| none.

Record GeminiAuthStatus : Type := {
  authenticated : bool;
  method : AuthMethod;
  hasApiKey : option bool;
  hasEnvApiKey : option bool;
  hasCredentialsFile : option bool;
  error : option string
}.

(** [settings?.security?.auth?.selectedType], kept when truthy. *)
Definition selectedAuthType (file : SettingsFile) : option value :=
  match file with
  | ParsedSettings settings =>
      let selectedType :=
        getFieldOpt (getFieldOpt (getFieldOpt settings "security") "auth") "selectedType" in
      if truthy selectedType then Some selectedType else None
  | _ => None
  end.

Definition checkAuth (cliPath : option string) (env : Env) (file : SettingsFile)
    : Completion GeminiAuthStatus :=
  if negb (present cliPath) then
    Normal {| authenticated := false; method := none;
              hasApiKey := None; hasEnvApiKey := None;
              hasCredentialsFile := None; error := None |}
  else
    let hasApiKey' := present (GEMINI_API_KEY env) in
    let hasEnvApiKey' := hasApiKey' in
    let hasVertexAi := present (GOOGLE_APPLICATION_CREDENTIALS env)
                       || present (GOOGLE_CLOUD_PROJECT env) in
    let authType := selectedAuthType file in
    let hasCredentialsFile' := match authType with Some _ => true | None => false end in
    let status (a : bool) (m : AuthMethod) (e : option string) :=
      {| authenticated := a; method := m;
         hasApiKey := Some hasApiKey'; hasEnvApiKey := Some hasEnvApiKey';
         hasCredentialsFile := Some hasCredentialsFile'; error := e |} in
    if hasApiKey' then Normal (status true api_key None)
    else if hasVertexAi then Normal (status true vertex_ai None)
    else
      match authType with
      | Some (VStr t) =>
          if startsWith t "oauth" then Normal (status true google_login None)
          else if t =? "api-key" then Normal (status true api_key None)
          else if (t =? "code-assist") || (t =? "codeassist") then
            Normal (status false google_login
              (Some ("Code Assist authentication requires IDE integration. Please use "
                     ++ dq ++ "gemini" ++ dq
                     ++ " CLI to log in with a different method, or set GEMINI_API_KEY.")))
          else Normal (status true google_login None)
      | Some _ =>
          (* a truthy value that is not a string has no startsWith method *)
          Throw (TypeError "authType.startsWith is not a function")
      | None =>
          Normal (status false none
            (Some ("No authentication configured. Run " ++ dq ++ "gemini" ++ dq
                   ++ " interactively to log in, or set GEMINI_API_KEY.")))
      end.


End Gemini.

(* ===================================================================== *)
(** ** The auto-mode service *)
(* ===================================================================== *)

(** The service's implementation file is not among the sources; its unit
    tests are.  The definitions below follow the specification's
    description of the service (sections 3, 4.3 and 5) and the shapes the
    tests use. *)

Module AutoMode.
Import Js.

(** Entry of the private [runningFeatures] Map, as the tests build it. *)
Record RunningFeatureEntry : Type := {
  featureId : string;
  projectPath : string;
  isAutoMode : bool
}.

(** A JavaScript [Map] with string keys: its bindings in insertion
    order. *)
Definition Table : Type := list (string * RunningFeatureEntry).

Fixpoint mapHas (key : string) (t : Table) : bool :=
  match t with
  | [] => false
  | (k, _) :: rest => (k =? key) || mapHas key rest
  end.

(** [Map.prototype.set]: an existing key keeps its place and takes the
    new value; a new key goes last. *)
Fixpoint mapSet (key : string) (entry : RunningFeatureEntry) (t : Table) : Table :=
  match t with
  | [] => [ (key, entry) ]
  | (k, e) :: rest =>
      if k =? key then (k, entry) :: rest
      else (k, e) :: mapSet key entry rest
  end.

(** [Map.prototype.delete] *)
Fixpoint mapDelete (key : string) (t : Table) : Table :=
  match t with
  | [] => []
  | (k, e) :: rest =>
      if k =? key then rest else (k, e) :: mapDelete key rest
  end.

(** [Array.from(map.keys())] *)
Definition keys (t : Table) : list string := map fst t.

(** How many bindings the table holds for a key. *)
Definition entriesFor (key : string) (t : Table) : nat :=
  length (filter (fun kv => fst kv =? key) t).

Record LoopConfig : Type := {
  loopProjectPath : string;
  maxConcurrency : nat
}.

Inductive AutoModeEvent : Type :=
| auto_mode_started (message : string) (project : string)
| auto_mode_stopped
| auto_mode_feature_start (feature : string)
| auto_mode_feature_complete (feature : string)
| auto_mode_error (feature : string) (message : string).

Record Service : Type := {
  autoLoop : option LoopConfig;        (* the active loop, if any *)
  runningFeatures : Table;
  emitted : list AutoModeEvent         (* events sent to the bus, oldest first *)
}.

Definition initial : Service :=
  {| autoLoop := None; runningFeatures := []; emitted := [] |}.

Definition alreadyRunning : Thrown := PlainError "Auto mode is already running".

(** Modelled from the spec: [startAutoLoop] of the auto-mode service
    (section 4.3): it fails with an already-running condition when a loop
    is active, and otherwise records the loop and announces its start. *)
Definition startAutoLoop (project : string) (limit : nat) (s : Service)
    : Completion unit * Service :=
  match autoLoop s with
  | Some _ => (Throw alreadyRunning, s)
  | None =>
      (Normal tt,
       {| autoLoop := Some {| loopProjectPath := project; maxConcurrency := limit |};
          runningFeatures := runningFeatures s;
          emitted := (emitted s ++ [ auto_mode_started "Auto mode started" project ])%list |})
  end.

(** Modelled from the spec: [stopAutoLoop] (section 4.3): the loop stops
    accepting features, in-flight entries stay, and the call returns how
    many were running, 0 when no loop was active. *)
Definition stopAutoLoop (s : Service) : nat * Service :=
  match autoLoop s with
  | None => (0, s)
  | Some _ =>
      (length (runningFeatures s),
       {| autoLoop := None;
          runningFeatures := runningFeatures s;
          emitted := (emitted s ++ [ auto_mode_stopped ])%list |})
  end.

(** Modelled from the spec: the start of one feature's execution
    (sections 4.3 and 5): the membership check and the registration happen
    with no suspension point between them; a feature already in the table
    is refused and the table is left as it is. *)
Definition startFeature (fid project : string) (auto : bool) (s : Service)
    : Completion unit * Service :=
  if mapHas fid (runningFeatures s) then
    (Throw (PlainError "already running"), s)
  else
    (Normal tt,
     {| autoLoop := autoLoop s;
        runningFeatures :=
          mapSet fid {| featureId := fid; projectPath := project; isAutoMode := auto |}
                 (runningFeatures s);
        emitted := (emitted s ++ [ auto_mode_feature_start fid ])%list |}).

(** Modelled from the spec: one scheduling pass of the loop (section
    4.3): a candidate is started only while a loop is active and fewer
    than [maxConcurrency] entries are running. *)
Definition scheduleFeature (fid : string) (s : Service) : Service :=
  match autoLoop s with
  | Some cfg =>
      if Nat.ltb (length (runningFeatures s)) (maxConcurrency cfg)
      then snd (startFeature fid (loopProjectPath cfg) true s)
      else s
  | None => s
  end.

(** Modelled from the spec: the end of an execution (section 4.3): the
    entry is released and one terminal event is emitted, whether the
    provider finished, failed or was force-stopped. *)
Definition finishFeature (fid : string) (failure : option string) (s : Service)
    : Service :=
  {| autoLoop := autoLoop s;
     runningFeatures := mapDelete fid (runningFeatures s);
     emitted := (emitted s ++
                 [ match failure with
                   | None => auto_mode_feature_complete fid
                   | Some msg => auto_mode_error fid msg
                   end ])%list |}.

(** What can happen to a service, from outside or from its own loop. *)
Inductive Command : Type :=
| CallStartAutoLoop (project : string) (limit : nat)
| CallStopAutoLoop
| CallStartFeature (fid project : string) (auto : bool)
| LoopSchedules (fid : string)
| ExecutionEnds (fid : string) (failure : option string)
| ForceStop (fid : string)
| TestSetsEntry (key : string) (entry : RunningFeatureEntry).

(** Each command runs to its end before the next starts: the runtime is
    single-threaded and none of the operations above suspends between
    its check and its update.  Concurrent requests are the interleavings
    of their commands. *)
Definition exec (c : Command) (s : Service) : Service :=
  match c with
  | CallStartAutoLoop project limit => snd (startAutoLoop project limit s)
  | CallStopAutoLoop => snd (stopAutoLoop s)
  | CallStartFeature fid project auto => snd (startFeature fid project auto s)
  | LoopSchedules fid => scheduleFeature fid s
  | ExecutionEnds fid failure => finishFeature fid failure s
  | ForceStop fid => finishFeature fid (Some "aborted") s
  | TestSetsEntry key entry =>
      {| autoLoop := autoLoop s;
         runningFeatures := mapSet key entry (runningFeatures s);
         emitted := emitted s |}
  end.

Definition run (cmds : list Command) (s : Service) : Service :=
  fold_left (fun st c => exec c st) cmds s.

(** A state the service can be in: what some sequence of commands makes
    of the initial state. *)
Definition reachable (s : Service) : Prop :=
  exists cmds, s = run cmds initial.

(** *** getRunningAgents *)

(** The fields of a stored feature that the enrichment reads. *)
Record Feature : Type := {
  title : option string;
  description : option string
}.

Record RunningAgent : Type := {
  agentFeatureId : string;
  agentProjectPath : string;
  projectName : string;
  agentIsAutoMode : bool;
  agentTitle : option string;
  agentDescription : option string
}.

(** Modelled from the spec: the segments of a path (section 4.3 speaks
    of the final path segment of [projectPath]): [path.split('/')]. *)
Fixpoint segments (path : string) : list string :=
  match path with
  | EmptyString => [ EmptyString ]
  | String c rest =>
      if Ascii.eqb c "/"%char then EmptyString :: segments rest
      else match segments rest with
           | seg :: more => String c seg :: more
           | [] => [ String c EmptyString ]
           end
  end.

(** [segs.join('/')] with a separator in front of every element: the
    text that follows the first segment of a split path. *)
Fixpoint slashJoined (segs : list string) : string :=
  match segs with
  | [] => EmptyString
  | seg :: more => "/" ++ seg ++ slashJoined more
  end.

(** Modelled from the spec: the project name of a running agent
    (section 4.3): the final path segment of [projectPath]. *)
Definition finalSegment (path : string) : string :=
  last (segments path) EmptyString.

Section WithFeatureStore.
(** The feature store's [get(projectPath, featureId)]: a feature, null,
    or a raised error. *)
Variable featureLoaderGet : string -> string -> Completion (option Feature).

(** Modelled from the spec: the best-effort lookup of [getRunningAgents]
    (section 4.3), whose failures are swallowed:
    [try { ... } catch { }] around one call of the store. *)
Definition tryLookup (rf : RunningFeatureEntry) : option Feature :=
  match featureLoaderGet (projectPath rf) (featureId rf) with
  | Normal found => found
  | Throw _ => None
  end.

(** Modelled from the spec: the enrichment of one entry by
    [getRunningAgents] (section 4.3): a best-effort lookup whose failure
    leaves title and description undefined. *)
Definition enrich (rf : RunningFeatureEntry) : Completion RunningAgent :=
  let feature := tryLookup rf in
  Normal {| agentFeatureId := featureId rf;
            agentProjectPath := projectPath rf;
            projectName := finalSegment (projectPath rf);
            agentIsAutoMode := isAutoMode rf;
            agentTitle := match feature with Some f => title f | None => None end;
            agentDescription := match feature with Some f => description f | None => None end |}.

(** Modelled from the spec: [getRunningAgents] (section 4.3): a snapshot
    of the table's values, each enriched; the results are gathered as
    [Promise.all] gathers them, which fails if any of them fails. *)
Definition getRunningAgents (s : Service) : Completion (list RunningAgent) :=
  mapM enrich (map snd (runningFeatures s)).

End WithFeatureStore.

End AutoMode.

(* ===================================================================== *)
(** ** The rest of the provider: models, version, installation status *)
(* ===================================================================== *)

Module GeminiSetup.
Import Js Gemini.

(** *** The model table of [@automaker/types] *)

Record GeminiModelConfig : Type := {
  label : string;
  configDescription : string;
  supportsVision : bool;
  supportsThinking : bool;
  contextWindow : option Z
}.

Definition GEMINI_MODEL_MAP : list (string * GeminiModelConfig) :=
  [ ("gemini-3-pro-preview",
     {| label := "Gemini 3 Pro Preview";
        configDescription := "Most advanced Gemini model with deep reasoning capabilities.";
        supportsVision := true; supportsThinking := true;
        contextWindow := Some 1000000%Z |});
    ("gemini-3-flash-preview",
     {| label := "Gemini 3 Flash Preview";
        configDescription := "Fast Gemini 3 model for quick tasks.";
        supportsVision := true; supportsThinking := true;
        contextWindow := Some 1000000%Z |});
    ("gemini-2.5-pro",
     {| label := "Gemini 2.5 Pro";
        configDescription := "Advanced model with strong reasoning and 1M context.";
        supportsVision := true; supportsThinking := true;
        contextWindow := Some 1000000%Z |});
    ("gemini-2.5-flash",
     {| label := "Gemini 2.5 Flash";
        configDescription := "Balanced speed and capability for most tasks.";
        supportsVision := true; supportsThinking := true;
        contextWindow := Some 1000000%Z |});
    ("gemini-2.5-flash-lite",
     {| label := "Gemini 2.5 Flash Lite";
        configDescription := "Fastest Gemini model for simple tasks.";
        supportsVision := true; supportsThinking := false;
        contextWindow := Some 1000000%Z |}) ].

(** [Object.keys(GEMINI_MODEL_MAP)] *)
Definition getAllGeminiModelIds : list string := map fst GEMINI_MODEL_MAP.

Definition DEFAULT_GEMINI_MODEL : string := "gemini-2.5-flash".

Record ModelDefinition : Type := {
  id : string;
  name : string;
  modelString : string;
  provider : string;
  description : string;
  supportsTools : bool;
  modelSupportsVision : bool;
  modelContextWindow : option Z
}.

(** [Object.entries(GEMINI_MODEL_MAP).map(...)] *)
Definition getAvailableModels : list ModelDefinition :=
  map (fun entry =>
         {| id := fst entry;
            name := label (snd entry);
            modelString := fst entry;
            provider := "gemini";
            description := configDescription (snd entry);
            supportsTools := true;
            modelSupportsVision := supportsVision (snd entry);
            modelContextWindow := contextWindow (snd entry) |})
      GEMINI_MODEL_MAP.

Definition supportsFeature (feature : string) : bool :=
  existsb (String.eqb feature) [ "tools"; "text"; "streaming"; "vision"; "thinking" ].

(** *** getVersion, detectInstallation *)

(** [versionCommand] is what [execSync(cliPath --version).trim()] comes
    to: the trimmed output, or the error the command raised. *)
Definition getVersion (cliPath : option string) (versionCommand : Completion string)
    : option string :=
  if present cliPath then
    match versionCommand with
    | Normal output => Some output
    | Throw _ => None
    end
  else None.

Record InstallationStatus : Type := {
  installed : bool;
  version : option string;
  path : option string;
  installMethod : string;
  statusHasApiKey : bool;
  statusAuthenticated : bool
}.

(** [o || undefined] on an optional string. *)
Definition orUndefined (o : option string) : option string :=
  if present o then o else None.

(** [isInstalled] is the answer of the base class's [isInstalled()],
    which is defined outside this file. *)
Definition detectInstallation (isInstalled : bool) (versionCommand : Completion string)
    (cliPath : option string) (env : Env) (file : SettingsFile)
    : Completion InstallationStatus :=
  let version := if isInstalled then getVersion cliPath versionCommand else None in
  auth <- checkAuth cliPath env file ;;
  Normal {| installed := isInstalled;
            version := orUndefined version;
            path := orUndefined cliPath;
            installMethod := "cli";
            statusHasApiKey := present (GEMINI_API_KEY env);
            statusAuthenticated := authenticated auth |}.

End GeminiSetup.

(* ===================================================================== *)
(** ** The setup routes for the Gemini CLI *)
(* ===================================================================== *)

Module SetupRoutes.
Import Js Gemini GeminiSetup.

(** What the handlers use of [fs/promises] and [path].  An operation
    resolves or rejects, and may change the disk. *)
Class FileSystem : Type := {
  Disk : Type;
  pathJoin : list string -> string;
  fsAccess : Disk -> string -> Completion unit;
  fsUnlink : Disk -> string -> Completion unit * Disk;
  fsMkdirRecursive : Disk -> string -> Completion unit * Disk;
  fsWriteFile : Disk -> string -> string -> Completion unit * Disk
}.

Definition DISCONNECTED_MARKER_FILE : string := ".gemini-disconnected".

(** [res.json({success: true, message})], or
    [res.status(500).json({success: false, error})]. *)
Inductive ActionResponse : Type :=
| ActionOk (message : string)
| ActionFailed (error : string).

Record AuthView : Type := {
  viewAuthenticated : bool;
  viewMethod : AuthMethod;
  viewHasApiKey : bool;
  viewHasEnvApiKey : option bool;      (* None: the key is not in the answer *)
  viewError : option string
}.

(** The answer of [GET /api/setup/gemini-status]: the report (status
    200), or [{success: false, error}] with status 500. *)
Inductive StatusResponse : Type :=
| StatusReport (installed : bool) (version : option string) (path : option string)
               (auth : AuthView) (installCommand loginCommand : string)
| StatusFailed (error : string).

(** What a [new GeminiProvider()] finds on the machine. *)
Record Machine : Type := {
  cliPath : option string;             (* this.cliPath after detection *)
  isInstalled : bool;                  (* isInstalled() of the base class *)
  versionCommand : Completion string;  (* the --version command, trimmed *)
  env : Env;
  settingsFile : SettingsFile
}.

(** [o || false] *)
Definition orFalse (o : option bool) : bool :=
  match o with
  | Some b => b
  | None => false
  end.

Section Handlers.
Context {fs : FileSystem}.
(** [getErrorMessage] of the shared route helpers, and [process.cwd()]. *)
Variable getErrorMessage : Thrown -> string.
Variable projectRoot : string.

(** POST /api/setup/auth-gemini: a failing [unlink] is swallowed. *)
Definition authGeminiHandler (disk : Disk) : ActionResponse * Disk :=
  let automakerDir := pathJoin [ projectRoot; ".automaker" ] in
  let markerPath := pathJoin [ automakerDir; DISCONNECTED_MARKER_FILE ] in
  let (_, disk) := fsUnlink disk markerPath in
  (ActionOk "Gemini CLI connected to app", disk).

(** POST /api/setup/deauth-gemini *)
Definition deauthGeminiHandler (disk : Disk) : ActionResponse * Disk :=
  let automakerDir := pathJoin [ projectRoot; ".automaker" ] in
  match fsMkdirRecursive disk automakerDir with
  | (Throw e, disk) => (ActionFailed (getErrorMessage e), disk)
  | (Normal _, disk) =>
      let markerPath := pathJoin [ automakerDir; DISCONNECTED_MARKER_FILE ] in
      match fsWriteFile disk markerPath "Gemini CLI disconnected from app" with
      | (Throw e, disk) => (ActionFailed (getErrorMessage e), disk)
      | (Normal _, disk) => (ActionOk "Gemini CLI disconnected from app", disk)
      end
  end.

Definition isGeminiDisconnectedFromApp (disk : Disk) : bool :=
  let markerPath := pathJoin [ projectRoot; ".automaker"; DISCONNECTED_MARKER_FILE ] in
  match fsAccess disk markerPath with
  | Normal _ => true
  | Throw _ => false
  end.

Definition installCommand : string := "npm install -g @google/gemini-cli".
Definition loginCommand : string := "gemini".

(** GET /api/setup/gemini-status.  The provider is asked twice for the
    authentication state, once inside [detectInstallation]; both calls
    see the same machine. *)
Definition geminiStatusHandler (disk : Disk) (machine : Machine) : StatusResponse :=
  if isGeminiDisconnectedFromApp disk then
    StatusReport true None None
      {| viewAuthenticated := false; viewMethod := none; viewHasApiKey := false;
         viewHasEnvApiKey := None; viewError := None |}
      installCommand loginCommand
  else
    let answers :=
      status <- detectInstallation (isInstalled machine) (versionCommand machine)
                  (cliPath machine) (env machine) (settingsFile machine) ;;
      auth <- checkAuth (cliPath machine) (env machine) (settingsFile machine) ;;
      Normal (status, auth) in
    match answers with
    | Normal (status, auth) =>
        StatusReport (installed status) (orUndefined (version status))
          (orUndefined (path status))
          {| viewAuthenticated := authenticated auth;
             viewMethod := method auth;
             viewHasApiKey := orFalse (hasApiKey auth);
             viewHasEnvApiKey := Some (orFalse (hasEnvApiKey auth));
             viewError := error auth |}
          installCommand loginCommand
    | Throw e => StatusFailed (getErrorMessage e)
    end.

End Handlers.

(** A disk that is the list of its files, with no faults: [unlink]
    rejects only when the file is not there. *)
Definition noSuchFile (p : string) : Thrown :=
  Raised {| instanceOfError := true; raisedName := "Error";
            raisedMessage := "ENOENT: no such file or directory, " ++ p;
            raisedStderr := None; raisedExitCode := None |}.

Definition listDisk : FileSystem :=
  {| Disk := list string;
     pathJoin := String.concat "/";
     fsAccess := fun disk p =>
       if existsb (String.eqb p) disk then Normal tt else Throw (noSuchFile p);
     fsUnlink := fun disk p =>
       if existsb (String.eqb p) disk
       then (Normal tt, filter (fun q => negb (String.eqb p q)) disk)
       else (Throw (noSuchFile p), disk);
     fsMkdirRecursive := fun disk _ => (Normal tt, disk);
     fsWriteFile := fun disk p _ => (Normal tt, p :: disk) |}.

(** The laws of a file system that the properties below rest on. *)
Definition writtenFilesAreAccessible (fs : FileSystem) : Prop :=
  forall disk p content disk',
    fsWriteFile disk p content = (Normal tt, disk') -> fsAccess disk' p = Normal tt.

Definition unlinkedFilesAreGone (fs : FileSystem) : Prop :=
  forall disk p disk',
    fsUnlink disk p = (Normal tt, disk') -> exists e, fsAccess disk' p = Throw e.

Definition joinIsNested (fs : FileSystem) : Prop :=
  forall a b c, pathJoin [ pathJoin [ a; b ]; c ] = pathJoin [ a; b; c ].

End SetupRoutes.

(* ===================================================================== *)
(** ** A concrete host, and the specification's wording *)
(* ===================================================================== *)

Module Sample.
Import Js Gemini.

Definition lowerAscii (c : ascii) : ascii :=
  let n := nat_of_ascii c in
  if Nat.leb 65 n && Nat.leb n 90 then ascii_of_nat (n + 32) else c.

(** [toLowerCase] on text whose letters are ASCII. *)
Fixpoint asciiLowerCase (s : string) : string :=
  match s with
  | EmptyString => EmptyString
  | String c rest => String (lowerAscii c) (asciiLowerCase rest)
  end.

(** An abort test that looks at the raised object's name. *)
Definition abortByName (e : Thrown) : bool :=
  match e with
  | Raised r => raisedName r =? "AbortError"
  | _ => false
  end.

(** A host whose subprocess produces the given stream and whose model id
    check accepts every id. *)
Definition hostProducing (stream : Stream) : Host :=
  {| toLowerCase := asciiLowerCase;
     isAbortError := abortByName;
     validateBareModelId := fun _ => Normal tt;
     spawnJSONLProcess := fun _ _ => stream |}.

Definition quietHost : Host := hostProducing {| events := []; failure := None |}.

Definition sampleOptions : ExecuteOptions :=
  {| prompt := PromptString "fix the bug"; model := Some "2.5-flash";
     cwd := Some "/home/user/project" |}.

Definition initEvent (sid : string) : value :=
  VObj [ ("type", VStr "init"); ("session_id", VStr sid); ("model", VStr "gemini-2.5-flash") ].

Definition assistantEvent (text : string) : value :=
  VObj [ ("type", VStr "message"); ("role", VStr "assistant"); ("content", VStr text) ].


Definition abortError : Thrown :=
  Raised {| instanceOfError := true; raisedName := "AbortError";
            raisedMessage := "The operation was aborted";
            raisedStderr := None; raisedExitCode := None |}.

Definition exitError (stderr : string) (exitCode : Z) : Thrown :=
  Raised {| instanceOfError := true; raisedName := "Error";
            raisedMessage := "Process exited";
            raisedStderr := Some (Some stderr); raisedExitCode := Some exitCode |}.

End Sample.

Module Wording.
Import Js Gemini.

(** The command line of section 6, after the executable:
    [--output-format stream-json --model <id> --sandbox false
     --approval-mode yolo --include-directories <cwd> <promptText>],
    [<id>] being the bare id with [gemini-] put back when it is not
    there. *)
Definition specArgv (bareModel dir promptText : string) : list string :=
  [ "--output-format"; "stream-json";
    "--model"; if startsWith bareModel "gemini-" then bareModel
               else "gemini-" ++ bareModel;
    "--sandbox"; "false";
    "--approval-mode"; "yolo";
    "--include-directories"; dir;
    promptText ].

(** The vendor's four todo states in the common three-state vocabulary. *)
Definition collapseStatus (status : string) : string :=
  if status =? "cancelled" then "completed" else status.

(** A todo as the vendor declares it, [{description?: string; ...}]: not
    null, and its description, when there is one, is a string. *)
Definition todoShaped (todo : value) : Prop :=
  nullish todo = false /\
  (getFieldOpt todo "description" = VUndefined \/
   exists d, getFieldOpt todo "description" = VStr d).

(** The common shape of a todo: [description] as [content] and as
    [activeForm], the empty string when there is none; [status]
    collapsed. *)
Definition specTodo (todo : value) : value :=
  let text := match getFieldOpt todo "description" with
              | VStr d => d
              | _ => ""
              end in
  VObj [ ("content", VStr text);
         ("status", match getFieldOpt todo "status" with
                    | VStr st => VStr (collapseStatus st)
                    | other => other
                    end);
         ("activeForm", VStr text) ].


(** The documented event tags of section 6. *)
Definition documentedTags : list string :=
  [ "init"; "message"; "tool_use"; "tool_result"; "result"; "error" ].

Definition hasDocumentedTag (event : value) : bool :=
  match getFieldOpt event "type" with
  | VStr tag => existsb (String.eqb tag) documentedTags
  | _ => false
  end.

(** The events on which a [write_todos] tool call cannot be normalized:
    no parameters object, or a todos array with a null entry. *)
Definition malformedWriteTodos (event : value) : bool :=
  isStr (getFieldOpt event "type") "tool_use"
  && isStr (getFieldOpt event "tool_name") "write_todos"
  && (let parameters := getFieldOpt event "parameters" in
      nullish parameters
      || match getFieldOpt parameters "todos" with
         | VArr items => existsb nullish items
         | _ => false
         end).

Definition noSlash (seg : string) : Prop := includes seg "/" = false.

(** A value that cannot be converted to a string: an object with a
    [toString] entry of its own, or an array that holds such a value. *)
Fixpoint unprintable (v : value) : bool :=
  match v with
  | VObj props => hasOwn "toString" props
  | VArr items => existsb unprintable items
  | _ => false
  end.

(** The events on which [normalizeEvent] raises: [null] and [undefined];
    an event that holds an unprintable value where the provider puts it
    into a text or uses it as a key (the session id or model of an init
    event, the tool name of a tool call, the output of a failed tool
    result, the status or token count of a result that is not an error,
    the type tag of an event of no documented type); and a malformed
    [write_todos] call. *)
Definition raisesTypeError (event : value) : bool :=
  nullish event
  || (let type := getFieldOpt event "type" in
      if isStr type "init" then
        unprintable (getFieldOpt event "session_id")
        || unprintable (getFieldOpt event "model")
      else if isStr type "message" then false
      else if isStr type "tool_use" then
        unprintable (getFieldOpt event "tool_name") || malformedWriteTodos event
      else if isStr type "tool_result" then
        isStr (getFieldOpt event "status") "error"
        && unprintable (getFieldOpt event "output")
      else if isStr type "result" then
        negb (isStr (getFieldOpt event "status") "error")
        && (unprintable (getFieldOpt event "status")
            || unprintable (getFieldOpt (getFieldOpt event "stats") "total_tokens"))
      else if isStr type "error" then false
      else unprintable type).

(** [name] is the last segment of [path]: it holds no separator, and
    [path] is [name] alone or a directory part ending in a separator
    followed by [name]. *)
Definition isFinalSegmentOf (name path : string) : Prop :=
  noSlash name
  /\ exists dir, path = dir ++ name
                 /\ (dir = "" \/ exists parent, dir = parent ++ "/").

End Wording.

(* ===================================================================== *)
(** ** Vocabulary for the further properties *)
(* ===================================================================== *)

Module Behaviour.
Import Js Gemini.

(** A message body as the consumers expect it: an assistant message
    holds exactly one block, an error message a non-empty error. *)
Definition wellFormedBody (b : MessageBody) : Prop :=
  match b with
  | AssistantMessage blocks => length blocks = 1
  | ResultSuccess => True
  | ErrorMessage e => truthy e = true
  end.

(** The bodies of the messages the events of a stream normalize to, in
    stream order. *)
Definition normalizedBodies (evs : list value) : list MessageBody :=
  flat_map (fun event =>
              match normalizeEvent event with
              | Normal (Some m) => [ body m ]
              | _ => []
              end) evs.

Definition notCancelled (todo : value) : Prop :=
  isStr (getFieldOpt todo "status") "cancelled" = false.

Definition isTextBlock (p : PromptBlock) : bool :=
  (blockType p =? "text") && present (blockText p).

(** The settings file selects an authentication type that is not a
    string. *)
Definition selectsNonString (file : SettingsFile) : bool :=
  match selectedAuthType file with
  | Some (VStr _) => false
  | Some _ => true
  | None => false
  end.

Definition hasVertexAi (env : Env) : bool :=
  present (GOOGLE_APPLICATION_CREDENTIALS env) || present (GOOGLE_CLOUD_PROJECT env).

(** The only situation in which [checkAuth] raises. *)
Definition checkAuthRaises (cliPath : option string) (env : Env) (file : SettingsFile)
    : bool :=
  present cliPath
  && negb (present (GEMINI_API_KEY env))
  && negb (hasVertexAi env)
  && selectsNonString file.

(** The fixed part of every command line: streaming JSON first, then,
    after the model, sandbox off and automatic approval. *)
Definition argvAround (modelPart dirPart : list string) : list string :=
  ([ "--output-format"; "stream-json" ] ++ modelPart
   ++ [ "--sandbox"; "false"; "--approval-mode"; "yolo" ] ++ dirPart)%list.

End Behaviour.

(* ===================================================================== *)
(** ** Properties of the Gemini provider *)
(* ===================================================================== *)

Import Js Gemini.

Section ArgvProperties.

Lemma present_some (s : string) : s <> "" -> present (Some s) = true.
Proof.
  intros Hne. unfold present.
  destruct (String.eqb_spec s ""); [contradiction | reflexivity].
Qed.

Lemma eqb_false (s t : string) : s <> t -> (s =? t) = false.
Proof. intros Hne. now apply String.eqb_neq. Qed.

(** C2, as stated, fails for the model id [auto]: [buildCliArgs] leaves
    the [--model] flag out, so the argv is not the one of section 6. *)
Lemma buildCliArgs_auto_has_no_model_flag :
  let options := {| prompt := PromptString "hi"; model := Some "auto"; cwd := Some "/p" |} in
  queryArgv options =
    Normal [ "--output-format"; "stream-json"; "--sandbox"; "false";
             "--approval-mode"; "yolo"; "--include-directories"; "/p"; "hi" ]
  /\ queryArgv options <> Normal (Wording.specArgv "auto" "/p" "hi").
Proof.
  split; [reflexivity | discriminate].
Qed.

(** C2 (amended): for options whose model id is non-empty and not [auto]
    and whose working directory is non-empty, [buildCliArgs] followed by
    the prompt text, which is what [executeQuery] passes on, is exactly
    [--output-format stream-json --model <id> --sandbox false
     --approval-mode yolo --include-directories <cwd> <promptText>]. *)
Theorem buildCliArgs_argv (options : ExecuteOptions) (m d promptText : string) :
  model options = Some m -> m <> "" -> m <> "auto" ->
  cwd options = Some d -> d <> "" ->
  extractPromptText options = Normal promptText ->
  (buildCliArgs options ++ [ promptText ])%list = Wording.specArgv m d promptText
  /\ queryArgv options = Normal (Wording.specArgv m d promptText).
Proof.
  intros Hm Hne Hauto Hd Hdne Hp.
  assert (Hargs : (buildCliArgs options ++ [ promptText ])%list
                  = Wording.specArgv m d promptText).
  { unfold buildCliArgs, Wording.specArgv.
    rewrite Hm, Hd, (present_some m Hne), (present_some d Hdne).
    rewrite (eqb_false m "" Hne), (eqb_false m "auto" Hauto). simpl.
    destruct (startsWith m "gemini-"); reflexivity. }
  split; [exact Hargs |].
  unfold queryArgv. rewrite Hp. simpl. now rewrite Hargs.
Qed.

(** The argv for the bare id [2.5-pro]. *)
Lemma buildCliArgs_argv_witness :
  (buildCliArgs {| prompt := PromptString "fix the bug"; model := Some "2.5-pro";
                   cwd := Some "/home/user/project" |} ++ [ "fix the bug" ])%list
  = [ "--output-format"; "stream-json"; "--model"; "gemini-2.5-pro";
      "--sandbox"; "false"; "--approval-mode"; "yolo";
      "--include-directories"; "/home/user/project"; "fix the bug" ].
Proof.
  refine (proj1 (buildCliArgs_argv
    {| prompt := PromptString "fix the bug"; model := Some "2.5-pro";
       cwd := Some "/home/user/project" |}
    "2.5-pro" "/home/user/project" "fix the bug" eq_refl _ _ eq_refl _ eq_refl));
    discriminate.
Defined.

End ArgvProperties.

Section MapErrorProperties.
Context {host : Host}.

(** The classification follows the order of the heuristics. *)
Lemma mapError_code (stderr : string) (exitCode : option Z) :
  code (mapError stderr exitCode) =
    let lower := toLowerCase stderr in
    if authHeuristic lower then NOT_AUTHENTICATED
    else if rateLimitHeuristic lower then RATE_LIMITED
    else if modelHeuristic lower then MODEL_UNAVAILABLE
    else if networkHeuristic lower then NETWORK_ERROR
    else if crashHeuristic lower exitCode then PROCESS_CRASHED
    else UNKNOWN.
Proof.
  unfold mapError. cbv zeta.
  destruct (authHeuristic _); [reflexivity |].
  destruct (rateLimitHeuristic _); [reflexivity |].
  destruct (modelHeuristic _); [reflexivity |].
  destruct (networkHeuristic _); [reflexivity |].
  destruct (crashHeuristic _ _); reflexivity.
Qed.

Lemma timeout_is_network (lower : string) :
  includes lower "timeout" = true -> networkHeuristic lower = true.
Proof.
  intros Ht. unfold networkHeuristic. rewrite Ht.
  now rewrite !orb_true_r.
Qed.

(** C10: [mapError] never answers TIMEOUT or NOT_INSTALLED; a text whose
    lower-case form contains [timeout] and that no earlier heuristic
    matched is a NETWORK_ERROR; a text no heuristic matches is UNKNOWN and
    not recoverable. *)
Theorem mapError_taxonomy (stderr : string) (exitCode : option Z) :
  let info := mapError stderr exitCode in
  let lower := toLowerCase stderr in
  code info <> TIMEOUT
  /\ code info <> NOT_INSTALLED
  /\ (includes lower "timeout" = true ->
      authHeuristic lower = false ->
      rateLimitHeuristic lower = false ->
      modelHeuristic lower = false ->
      code info = NETWORK_ERROR /\ recoverable info = true)
  /\ (authHeuristic lower = false ->
      rateLimitHeuristic lower = false ->
      modelHeuristic lower = false ->
      networkHeuristic lower = false ->
      crashHeuristic lower exitCode = false ->
      code info = UNKNOWN /\ recoverable info = false).
Proof.
  cbv zeta. split; [| split; [| split]].
  - rewrite mapError_code. cbv zeta.
    repeat match goal with |- context [if ?b then _ else _] => destruct b end;
      discriminate.
  - rewrite mapError_code. cbv zeta.
    repeat match goal with |- context [if ?b then _ else _] => destruct b end;
      discriminate.
  - intros Htimeout Hauth Hrate Hmodel. unfold mapError. cbv zeta.
    rewrite Hauth, Hrate, Hmodel, (timeout_is_network _ Htimeout).
    split; reflexivity.
  - intros Hauth Hrate Hmodel Hnet Hcrash. unfold mapError. cbv zeta.
    rewrite Hauth, Hrate, Hmodel, Hnet, Hcrash. split; reflexivity.
Qed.

End MapErrorProperties.

(** A timeout text and a text no heuristic knows, under ASCII
    lower-casing. *)
Lemma mapError_taxonomy_witness :
  code (mapError (host := Sample.quietHost) "Request TIMEOUT after 30s" (Some 1%Z))
    = NETWORK_ERROR
  /\ code (mapError (host := Sample.quietHost) "segfault" (Some 1%Z)) = UNKNOWN.
Proof.
  split.
  - exact (proj1 (proj1 (proj2 (proj2
      (mapError_taxonomy (host := Sample.quietHost) "Request TIMEOUT after 30s" (Some 1%Z))))
      eq_refl eq_refl eq_refl eq_refl)).
  - exact (proj1 (proj2 (proj2 (proj2
      (mapError_taxonomy (host := Sample.quietHost) "segfault" (Some 1%Z))))
      eq_refl eq_refl eq_refl eq_refl eq_refl)).
Defined.

Section CheckAuthProperties.

(** C9: with the CLI detected and GEMINI_API_KEY holding a key,
    [checkAuth] answers authenticated with method [api_key], whatever the
    settings file holds and whatever the other variables are. *)
Theorem checkAuth_api_key_first (cliPath : option string) (env : Env)
    (file : SettingsFile) (key : string) :
  present cliPath = true ->
  GEMINI_API_KEY env = Some key -> key <> "" ->
  exists status,
    checkAuth cliPath env file = Normal status
    /\ authenticated status = true
    /\ method status = api_key
    /\ hasEnvApiKey status = Some true
    /\ error status = None.
Proof.
  intros Hcli Hkey Hne.
  unfold checkAuth. rewrite Hcli, Hkey, (present_some key Hne). simpl.
  eexists. split; [reflexivity |]. simpl. repeat split.
Qed.

(** A key in the environment next to a settings file that selects Code
    Assist. *)
Lemma checkAuth_api_key_first_witness :
  exists status,
    checkAuth (Some "/usr/local/bin/gemini")
      {| GEMINI_API_KEY := Some "AIza-key";
         GOOGLE_APPLICATION_CREDENTIALS := None;
         GOOGLE_CLOUD_PROJECT := Some "my-project" |}
      (ParsedSettings
        (VObj [ ("security",
                 VObj [ ("auth", VObj [ ("selectedType", VStr "code-assist") ]) ]) ]))
      = Normal status
    /\ authenticated status = true
    /\ method status = api_key
    /\ hasEnvApiKey status = Some true
    /\ error status = None.
Proof.
  refine (checkAuth_api_key_first (Some "/usr/local/bin/gemini")
    {| GEMINI_API_KEY := Some "AIza-key";
       GOOGLE_APPLICATION_CREDENTIALS := None;
       GOOGLE_CLOUD_PROJECT := Some "my-project" |}
    _ "AIza-key" eq_refl eq_refl _).
  discriminate.
Defined.

End CheckAuthProperties.

Section ToolNormalization.

Lemma getField_defined (v : value) (key : string) :
  nullish v = false -> getField v key = Normal (getFieldOpt v key).
Proof. destruct v; simpl; intros H; try reflexivity; discriminate. Qed.

Lemma getField_nullish (v : value) (key : string) :
  nullish v = true -> exists msg, getField v key = Throw (TypeError msg).
Proof. destruct v; simpl; intros H; try discriminate; eexists; reflexivity. Qed.

Lemma normalizeTodo_shaped (todo : value) :
  Wording.todoShaped todo -> normalizeTodo todo = Normal (Wording.specTodo todo).
Proof.
  intros [Hdefined Hd]. unfold normalizeTodo, Wording.specTodo.
  rewrite !(getField_defined todo _ Hdefined). cbn [bind].
  assert (Hstatus :
    (if isStr (getFieldOpt todo "status") "cancelled" then VStr "completed"
     else getFieldOpt todo "status")
    = match getFieldOpt todo "status" with
      | VStr st => VStr (Wording.collapseStatus st)
      | other => other
      end).
  { destruct (getFieldOpt todo "status") as [| | | | st | |]; try reflexivity.
    unfold Wording.collapseStatus. simpl. now destruct (st =? "cancelled"). }
  rewrite Hstatus.
  destruct Hd as [-> | [d ->]]; [reflexivity |].
  unfold orElse. simpl.
  destruct (String.eqb_spec d "") as [-> | _]; reflexivity.
Qed.

Lemma mapM_normalizeTodo_shaped (items : list value) :
  Forall Wording.todoShaped items ->
  mapM normalizeTodo items = Normal (map Wording.specTodo items).
Proof.
  induction 1 as [| todo rest Htodo _ IH]; simpl; [reflexivity |].
  now rewrite (normalizeTodo_shaped todo Htodo), IH.
Qed.

Lemma normalizeTodo_defined (todo : value) :
  if nullish todo then exists msg, normalizeTodo todo = Throw (TypeError msg)
  else exists out, normalizeTodo todo = Normal out.
Proof.
  unfold normalizeTodo.
  destruct (nullish todo) eqn:Hn.
  - destruct (getField_nullish todo "description" Hn) as [msg ->].
    exists msg. reflexivity.
  - rewrite !(getField_defined todo _ Hn). simpl. eexists. reflexivity.
Qed.

Lemma mapM_normalizeTodo_defined (items : list value) :
  if existsb nullish items
  then exists msg, mapM normalizeTodo items = Throw (TypeError msg)
  else exists out, mapM normalizeTodo items = Normal out.
Proof.
  induction items as [| todo rest IH]; simpl.
  - eexists. reflexivity.
  - pose proof (normalizeTodo_defined todo) as Htodo.
    destruct (nullish todo); simpl.
    + destruct Htodo as [msg ->]. exists msg. reflexivity.
    + destruct Htodo as [out ->]. simpl.
      destruct (existsb nullish rest).
      * destruct IH as [msg ->]. exists msg. reflexivity.
      * destruct IH as [outs ->]. eexists. reflexivity.
Qed.

(** C6, as stated, fails: the guard is [Array.isArray] alone and the
    description goes through [||], so a todo whose description is the
    number 0 comes out with the empty string, not with its description. *)
Lemma write_todos_zero_description_is_dropped :
  normalizeEvent
    (VObj [ ("type", VStr "tool_use");
            ("tool_name", VStr "write_todos");
            ("tool_id", VStr "t1");
            ("parameters",
             VObj [ ("todos",
                     VArr [ VObj [ ("description", VNum "0");
                                   ("status", VStr "pending") ] ]) ]) ])
  = Normal (Some (assistant VUndefined
      (ToolUseBlock (Named (VStr "TodoWrite")) (VStr "t1")
         (VObj [ ("todos",
                  VArr [ VObj [ ("content", VStr "");
                                ("status", VStr "pending");
                                ("activeForm", VStr "") ] ]) ])))).
Proof. reflexivity. Qed.

(** C6 (amended): a [write_todos] tool-use event whose parameters hold a
    todos array of vendor-shaped todos (none of them null, each
    description absent or a string) is normalized to a [TodoWrite] call whose
    todos carry [description] as [content] and [activeForm] (the empty
    string when absent) and the status with [cancelled] collapsed to
    [completed]; [pending], [in_progress] and [completed] stay; for every
    other tool name the input comes back unchanged. *)
Theorem write_todos_normalization (event : value) (items : list value) :
  getFieldOpt event "type" = VStr "tool_use" ->
  getFieldOpt event "tool_name" = VStr "write_todos" ->
  getFieldOpt (getFieldOpt event "parameters") "todos" = VArr items ->
  Forall Wording.todoShaped items ->
  normalizeEvent event =
    Normal (Some (assistant (getFieldOpt event "session_id")
      (ToolUseBlock (Named (VStr "TodoWrite")) (getFieldOpt event "tool_id")
         (VObj [ ("todos", VArr (map Wording.specTodo items)) ]))))
  /\ (Wording.collapseStatus "cancelled" = "completed"
      /\ Wording.collapseStatus "pending" = "pending"
      /\ Wording.collapseStatus "in_progress" = "in_progress"
      /\ Wording.collapseStatus "completed" = "completed")
  /\ (forall toolName input,
        isStr toolName "write_todos" = false ->
        normalizeGeminiToolInput toolName input = Normal input).
Proof.
  intros Htype Hname Htodos Hshaped. split; [| split].
  - destruct event; simpl in Htype; try discriminate.
    unfold normalizeEvent. simpl in *. rewrite Htype, Hname. simpl.
    destruct (lookup "parameters" props) eqn:Hparams; simpl in Htodos; try discriminate.
    unfold normalizeGeminiToolInput. simpl. rewrite Htodos. simpl.
    rewrite (mapM_normalizeTodo_shaped items Hshaped). reflexivity.
  - repeat split.
  - intros toolName input Hother. unfold normalizeGeminiToolInput.
    now rewrite Hother.
Qed.

(** A cancelled todo with a description and a running one without. *)
Lemma write_todos_normalization_witness :
  normalizeEvent
    (VObj [ ("type", VStr "tool_use");
            ("tool_name", VStr "write_todos");
            ("tool_id", VStr "t1");
            ("parameters",
             VObj [ ("todos",
                     VArr [ VObj [ ("description", VStr "Write tests");
                                   ("status", VStr "cancelled") ];
                            VObj [ ("status", VStr "in_progress") ] ]) ]) ])
  = Normal (Some (assistant VUndefined
      (ToolUseBlock (Named (VStr "TodoWrite")) (VStr "t1")
         (VObj [ ("todos",
                  VArr [ VObj [ ("content", VStr "Write tests");
                                ("status", VStr "completed");
                                ("activeForm", VStr "Write tests") ];
                         VObj [ ("content", VStr "");
                                ("status", VStr "in_progress");
                                ("activeForm", VStr "") ] ]) ])))).
Proof.
  refine (proj1 (write_todos_normalization
    (VObj [ ("type", VStr "tool_use");
            ("tool_name", VStr "write_todos");
            ("tool_id", VStr "t1");
            ("parameters",
             VObj [ ("todos",
                     VArr [ VObj [ ("description", VStr "Write tests");
                                   ("status", VStr "cancelled") ];
                            VObj [ ("status", VStr "in_progress") ] ]) ]) ])
    [ VObj [ ("description", VStr "Write tests"); ("status", VStr "cancelled") ];
      VObj [ ("status", VStr "in_progress") ] ]
    eq_refl eq_refl eq_refl _)).
  unfold Wording.todoShaped.
  constructor; [| constructor; [| constructor ]]; simpl.
  - split; [reflexivity | right; eexists; reflexivity].
  - split; [reflexivity | left; reflexivity].
Defined.

End ToolNormalization.

Section NormalizeEventTotality.

(** C3, as stated, fails: a [write_todos] call whose todos array holds
    [null] makes [normalizeEvent] raise a TypeError. *)
Lemma normalizeEvent_throws_on_null_todo :
  normalizeEvent
    (VObj [ ("type", VStr "tool_use");
            ("tool_name", VStr "write_todos");
            ("tool_id", VStr "t1");
            ("parameters", VObj [ ("todos", VArr [ VNull ]) ]) ])
  = Throw (TypeError "Cannot read properties of null (reading 'description')").
Proof. reflexivity. Qed.

(** Values that cannot be printed make it raise as well: a type tag, a
    tool name used as a key, the output of a failed tool call. *)
Lemma normalizeEvent_throws_on_unprintable :
  normalizeEvent (VObj [ ("type", VObj [ ("toString", VNum "1") ]) ])
  = Throw cannotConvert
  /\ normalizeEvent
       (VObj [ ("type", VStr "tool_use");
               ("tool_name", VArr [ VObj [ ("toString", VNull) ] ]);
               ("parameters", VObj []) ])
     = Throw cannotConvert
  /\ normalizeEvent
       (VObj [ ("type", VStr "tool_result"); ("status", VStr "error");
               ("output", VObj [ ("toString", VStr "x") ]) ])
     = Throw cannotConvert
  /\ normalizeEvent
       (VObj [ ("type", VStr "tool_result"); ("status", VStr "error");
               ("output", VObj [ ("code", VNum "1") ]) ])
     = Normal (Some (assistant VUndefined
                       (ToolResultBlock VUndefined (VStr "[ERROR] [object Object]")))).
Proof. repeat split. Qed.

Lemma normalizeGeminiToolInput_defined (toolName parameters : value) :
  if isStr toolName "write_todos"
     && (nullish parameters
         || match getFieldOpt parameters "todos" with
            | VArr items => existsb nullish items
            | _ => false
            end)
  then exists msg, normalizeGeminiToolInput toolName parameters = Throw (TypeError msg)
  else exists out, normalizeGeminiToolInput toolName parameters = Normal out.
Proof.
  unfold normalizeGeminiToolInput.
  destruct (isStr toolName "write_todos"); simpl; [| eexists; reflexivity].
  destruct (nullish parameters) eqn:Hn; simpl.
  - destruct (getField_nullish parameters "todos" Hn) as [msg ->].
    exists msg. reflexivity.
  - rewrite (getField_defined parameters "todos" Hn). simpl.
    destruct (getFieldOpt parameters "todos") as [| | | | | items |];
      try (eexists; reflexivity).
    pose proof (mapM_normalizeTodo_defined items) as Hitems.
    destruct (existsb nullish items).
    + destruct Hitems as [msg ->]. exists msg. reflexivity.
    + destruct Hitems as [out ->]. eexists. reflexivity.
Qed.

(** How ToString ends, by the shape of the value. *)
Lemma toString_cases (v : value) :
  if Wording.unprintable v then toString v = Throw cannotConvert
  else exists text, toString v = Normal text.
Proof.
  revert v. fix IH 1. intros v.
  destruct v as [| | b | n | s | items | props]; simpl;
    try (eexists; reflexivity).
  - destruct b; eexists; reflexivity.
  - assert (Hjoined :
      if existsb Wording.unprintable items
      then (fix joined (l : list value) : Completion (list string) :=
              match l with
              | [] => Normal []
              | x :: rest =>
                  s <- match x with
                       | VUndefined | VNull => Normal ""
                       | _ => toString x
                       end ;;
                  more <- joined rest ;;
                  Normal (s :: more)
              end) items = Throw cannotConvert
      else exists parts,
             (fix joined (l : list value) : Completion (list string) :=
                match l with
                | [] => Normal []
                | x :: rest =>
                    s <- match x with
                         | VUndefined | VNull => Normal ""
                         | _ => toString x
                         end ;;
                    more <- joined rest ;;
                    Normal (s :: more)
                end) items = Normal parts).
    { induction items as [| x rest IHrest]; simpl.
      - eexists. reflexivity.
      - pose proof (IH x) as Hx.
        destruct (Wording.unprintable x) eqn:Hbad; simpl.
        + destruct x; try discriminate Hbad; now rewrite Hx.
        + assert (Hhead : exists text,
                    match x with
                    | VUndefined | VNull => Normal ""
                    | _ => toString x
                    end = Normal text).
          { destruct Hx as [text Hx].
            destruct x; try (eexists; reflexivity); now exists text. }
          destruct Hhead as [text ->]. cbn [bind].
          destruct (existsb Wording.unprintable rest).
          * now rewrite IHrest.
          * destruct IHrest as [parts ->]. eexists. reflexivity. }
    destruct (existsb Wording.unprintable items).
    + now rewrite Hjoined.
    + destruct Hjoined as [parts ->]. eexists. reflexivity.
  - destruct (hasOwn "toString" props); [reflexivity | eexists; reflexivity].
Qed.

Lemma normalizeGeminiToolName_cases (name : value) :
  if Wording.unprintable name
  then normalizeGeminiToolName name = Throw cannotConvert
  else exists normalized, normalizeGeminiToolName name = Normal normalized.
Proof.
  unfold normalizeGeminiToolName.
  pose proof (toString_cases name) as Hname.
  destruct (Wording.unprintable name).
  - now rewrite Hname.
  - destruct Hname as [key ->]. cbn [bind].
    destruct (assoc key GEMINI_TOOL_NAME_MAP); [eexists; reflexivity |].
    destruct (existsb _ objectPrototypeKeys); eexists; reflexivity.
Qed.



Ltac answered :=
  eexists; split; [reflexivity | try (intros; discriminate); try reflexivity].

(** From [isStr (lookup "type" props) lit = true]: the tag is [lit]. *)
Ltac tagged H :=
  let tag := fresh "tag" in
  destruct (lookup "type" _) as [| | | | tag | |]; try discriminate H;
  simpl in H; apply String.eqb_eq in H; subst tag; simpl.

(** Case analysis on how the conversion of [v] ends. *)
Ltac printing v :=
  let H := fresh "Hprint" in
  pose proof (toString_cases v) as H;
  destruct (Wording.unprintable v);
  [rewrite H; cbn [bind] | destruct H as [? ->]; cbn [bind]].

(** C3 (amended): [normalizeEvent] raises a TypeError exactly on the
    events [raisesTypeError] describes: [null] and [undefined], events
    with an unprintable value in a field the provider interpolates or
    uses as a key, and [write_todos] tool calls without a parameters
    object or with a null todo; on every other raw event it returns a
    message or null, and null whenever the event's type tag is not one of
    the documented six. *)
Theorem normalizeEvent_total_but_for_malformed (event : value) :
  if Wording.raisesTypeError event
  then exists msg, normalizeEvent event = Throw (TypeError msg)
  else exists r, normalizeEvent event = Normal r
                 /\ (Wording.hasDocumentedTag event = false -> r = None).
Proof.
  destruct event as [| | b | n | s | items | props]; simpl;
    try (eexists; reflexivity); try answered.
  unfold Wording.raisesTypeError, normalizeEvent, Wording.malformedWriteTodos,
    Wording.hasDocumentedTag.
  simpl getField. simpl getFieldOpt. simpl nullish. cbn [bind orb].
  destruct (isStr (lookup "type" props) "init") eqn:Hinit.
  { printing (lookup "session_id" props); [eexists; reflexivity |].
    printing (lookup "model" props); [eexists; reflexivity | answered]. }
  destruct (isStr (lookup "type" props) "message") eqn:Hmessage.
  { tagged Hmessage.
    destruct (isStr (lookup "role" props) "user"); [answered |].
    destruct (isStr (lookup "role" props) "assistant"); answered. }
  destruct (isStr (lookup "type" props) "tool_use") eqn:Htool.
  { tagged Htool.
    pose proof (normalizeGeminiToolName_cases (lookup "tool_name" props)) as Hname.
    destruct (Wording.unprintable (lookup "tool_name" props)).
    - rewrite Hname. eexists. reflexivity.
    - destruct Hname as [normalized ->]. cbn [bind orb].
      pose proof (normalizeGeminiToolInput_defined
                    (lookup "tool_name" props) (lookup "parameters" props)) as Hin.
      destruct (isStr (lookup "tool_name" props) "write_todos" && _).
      + destruct Hin as [msg ->]. exists msg. reflexivity.
      + destruct Hin as [out ->]. answered. }
  destruct (isStr (lookup "type" props) "tool_result") eqn:Hresult.
  { tagged Hresult.
    destruct (isStr (lookup "status" props) "error"); cbn [andb bind]; [| answered].
    printing (lookup "output" props); [eexists; reflexivity | answered]. }
  destruct (isStr (lookup "type" props) "result") eqn:Hdone.
  { tagged Hdone.
    destruct (isStr (lookup "status" props) "error"); cbn [andb negb bind];
      [answered |].
    printing (lookup "status" props); [eexists; reflexivity |].
    cbn [orb].
    printing (getFieldOpt (lookup "stats" props) "total_tokens");
      [eexists; reflexivity | answered]. }
  destruct (isStr (lookup "type" props) "error") eqn:Herror.
  { tagged Herror. answered. }
  printing (lookup "type" props); [eexists; reflexivity | answered].
Qed.

End NormalizeEventTotality.

Section ExecuteQueryProperties.
Context {host : Host}.

(** What one iteration does to the session id and to the message. *)
Lemma stepEvent_inv (sid event sid' : value) (out : option ProviderMessage) :
  stepEvent sid event = Normal (sid', out) ->
  sid' = (if isStr (getFieldOpt event "type") "init"
          then getFieldOpt event "session_id" else sid)
  /\ match out with
     | Some m =>
         exists m0, normalizeEvent event = Normal (Some m0)
                    /\ body m = body m0
                    /\ session_id m = (if truthy (session_id m0) then session_id m0
                                       else if truthy sid' then sid' else session_id m0)
     | None => normalizeEvent event = Normal None
     end.
Proof.
  unfold stepEvent. intros Hstep.
  destruct (nullish event) eqn:Hn.
  - destruct (getField_nullish event "type" Hn) as [msg Hmsg].
    rewrite Hmsg in Hstep. discriminate.
  - rewrite (getField_defined event "type" Hn) in Hstep. cbn [bind] in Hstep.
    rewrite (getField_defined event "session_id" Hn) in Hstep.
    rewrite (getField_defined event "model" Hn) in Hstep.
    destruct (isStr (getFieldOpt event "type") "init"); cbn [bind] in Hstep;
      [destruct (toString (getFieldOpt event "session_id")); cbn [bind] in Hstep;
         [| discriminate];
       destruct (toString (getFieldOpt event "model")); cbn [bind] in Hstep;
         [| discriminate] |];
      destruct (normalizeEvent event) as [[m0 |] | e]; cbn [bind] in Hstep;
      try discriminate; inversion Hstep; subst; clear Hstep;
      (split; [reflexivity |]); try reflexivity;
      exists m0; (split; [reflexivity |]);
      destruct (truthy (session_id m0)); simpl;
      try (split; reflexivity);
      match goal with |- context [truthy ?v] => destruct (truthy v) end;
      simpl; split; reflexivity.
Qed.



Lemma consume_ending (evs : list value) (sid : value) (ending : option Thrown) :
  snd (consume sid evs None) = None ->
  consume sid evs ending = (fst (consume sid evs None), ending).
Proof.
  revert sid. induction evs as [| event rest IH]; intros sid; simpl; [reflexivity |].
  destruct (stepEvent sid event) as [[sid1 [m |]] | e]; try discriminate.
  - specialize (IH sid1). destruct (consume sid1 rest None) as [ms r]. simpl.
    intros ->. now rewrite IH.
  - apply IH.
Qed.


(** With a successful setup the generator yields what the loop yields. *)
Lemma executeQuery_yielded (cliPath : option string) (options : ExecuteOptions)
    (args : list string) :
  prepare cliPath options = Normal args ->
  yielded (executeQuery cliPath options)
  = fst (consume VUndefined (events (spawnJSONLProcess options args))
                 (failure (spawnJSONLProcess options args))).
Proof.
  intros Hprep. unfold executeQuery. rewrite Hprep.
  destruct (consume _ _ _) as [msgs [e |]]; [| reflexivity].
  now destruct (catchBlock e).
Qed.


(** C5 (amended): when the stream, its events processed, raises an
    abort, the generator ends normally and [mapError] is not called; when
    it raises an Error instance carrying stderr that is not an abort, the
    generator raises the GeminiError that [mapError] describes, not the
    raw error. *)
Theorem abort_is_not_an_error (cliPath : option string) (options : ExecuteOptions)
    (args : list string) (evs : list value) (e : Thrown) :
  prepare cliPath options = Normal args ->
  spawnJSONLProcess options args = {| events := evs; failure := Some e |} ->
  snd (consume VUndefined evs None) = None ->
  let run := executeQuery cliPath options in
  (isAbortError e = true ->
     outcome run = Normal tt /\ mapErrorCalls run = [])
  /\ (isAbortError e = false ->
      isErrorInstance e = true ->
      forall stderr, stderrOf e = Some stderr ->
      let text := if present stderr
                  then match stderr with Some s => s | None => "" end
                  else messageOf e in
      let info := mapError text (exitCodeOf e) in
      outcome run = Throw (GeminiError (code info) (message info)
                                       (recoverable info) (suggestion info))
      /\ outcome run <> Throw e
      /\ mapErrorCalls run = [ (text, exitCodeOf e) ]).
Proof.
  intros Hprep Hspawn Hevents. cbv zeta.
  unfold executeQuery. rewrite Hprep, Hspawn. simpl.
  rewrite (consume_ending evs VUndefined (Some e) Hevents).
  unfold catchBlock. split.
  - intros ->. simpl. split; reflexivity.
  - intros -> Herr stderr Hstderr. rewrite Herr, Hstderr. simpl.
    split; [reflexivity |]. split; [| reflexivity].
    destruct e; simpl in Hstderr; discriminate.
Qed.

End ExecuteQueryProperties.

(** C5, as stated, fails: the handler classifies only what is an
    [Error] instance, so a failure that carries stderr but is no [Error]
    instance is raised as it came, and [mapError] is not called. *)
Lemma stderr_failure_that_is_no_Error_is_raised_raw :
  let e := Raised {| instanceOfError := false; raisedName := "ProcessFailure";
                     raisedMessage := "Process exited";
                     raisedStderr := Some (Some "fatal: quota exceeded");
                     raisedExitCode := Some 1%Z |} in
  let run := executeQuery
               (host := Sample.hostProducing {| events := []; failure := Some e |})
               (Some "/usr/local/bin/gemini") Sample.sampleOptions in
  Sample.abortByName e = false
  /\ stderrOf e = Some (Some "fatal: quota exceeded")
  /\ outcome run = Throw e
  /\ mapErrorCalls run = [].
Proof. repeat split. Qed.

(** An init event whose session id cannot be printed stops the loop at
    its first template: nothing is yielded, the later events are not
    read, and the abort the stream would have raised is never seen. *)
Lemma executeQuery_unprintable_session_id :
  let run := executeQuery
               (host := Sample.hostProducing
                          {| events := [ VObj [ ("type", VStr "init");
                                                ("session_id",
                                                 VObj [ ("toString", VNum "1") ]);
                                                ("model", VStr "gemini-2.5-flash") ];
                                         Sample.assistantEvent "hello" ];
                             failure := Some Sample.abortError |})
               (Some "/usr/local/bin/gemini") Sample.sampleOptions in
  yielded run = []
  /\ outcome run = Throw (TypeError "Cannot convert object to primitive value")
  /\ mapErrorCalls run = [].
Proof. repeat split. Qed.



(** An aborted run, and a run whose subprocess exits on a 429. *)
Lemma abort_is_not_an_error_witness :
  outcome (executeQuery
             (host := Sample.hostProducing
                        {| events := [ Sample.initEvent "s1" ];
                           failure := Some Sample.abortError |})
             (Some "/usr/local/bin/gemini") Sample.sampleOptions)
    = Normal tt
  /\ outcome (executeQuery
                (host := Sample.hostProducing
                           {| events := [ Sample.initEvent "s1" ];
                              failure := Some (Sample.exitError "429 Too Many Requests" 1) |})
                (Some "/usr/local/bin/gemini") Sample.sampleOptions)
     = Throw (GeminiError RATE_LIMITED "Gemini API rate limit exceeded" true
                (Some "Wait a few minutes and try again. Free tier: 60 req/min, 1000 req/day")).
Proof.
  split.
  - refine (proj1 (proj1 (abort_is_not_an_error
      (host := Sample.hostProducing
                 {| events := [ Sample.initEvent "s1" ];
                    failure := Some Sample.abortError |})
      (Some "/usr/local/bin/gemini") Sample.sampleOptions
      [ "--output-format"; "stream-json"; "--model"; "gemini-2.5-flash";
        "--sandbox"; "false"; "--approval-mode"; "yolo";
        "--include-directories"; "/home/user/project"; "fix the bug" ]
      [ Sample.initEvent "s1" ] Sample.abortError eq_refl eq_refl eq_refl) eq_refl)).
  - refine (proj1 (proj2 (abort_is_not_an_error
      (host := Sample.hostProducing
                 {| events := [ Sample.initEvent "s1" ];
                    failure := Some (Sample.exitError "429 Too Many Requests" 1) |})
      (Some "/usr/local/bin/gemini") Sample.sampleOptions
      [ "--output-format"; "stream-json"; "--model"; "gemini-2.5-flash";
        "--sandbox"; "false"; "--approval-mode"; "yolo";
        "--include-directories"; "/home/user/project"; "fix the bug" ]
      [ Sample.initEvent "s1" ] (Sample.exitError "429 Too Many Requests" 1)
      eq_refl eq_refl eq_refl) eq_refl eq_refl (Some "429 Too Many Requests") eq_refl)).
Defined.

(* ===================================================================== *)
(** ** Properties of the auto-mode service *)
(* ===================================================================== *)

Import AutoMode.

Section RunningFeaturesTable.

Lemma mapHas_In (key : string) (t : Table) :
  mapHas key t = true <-> In key (keys t).
Proof.
  induction t as [| [k e] rest IH]; simpl.
  - split; [discriminate | contradiction].
  - rewrite orb_true_iff, IH, String.eqb_eq. tauto.
Qed.

Lemma keys_mapSet (key : string) (entry : RunningFeatureEntry) (t : Table) :
  keys (mapSet key entry t)
  = if mapHas key t then keys t else (keys t ++ [ key ])%list.
Proof.
  induction t as [| [k e] rest IH]; simpl; [reflexivity |].
  destruct (k =? key); simpl; [reflexivity |].
  rewrite IH. now destruct (mapHas key rest).
Qed.

Lemma keys_mapDelete_incl (key x : string) (t : Table) :
  In x (keys (mapDelete key t)) -> In x (keys t).
Proof.
  induction t as [| [k e] rest IH]; simpl; [tauto |].
  destruct (k =? key); simpl; tauto.
Qed.

Lemma NoDup_mapSet (key : string) (entry : RunningFeatureEntry) (t : Table) :
  NoDup (keys t) -> NoDup (keys (mapSet key entry t)).
Proof.
  intros Hnd. rewrite keys_mapSet.
  destruct (mapHas key t) eqn:Hhas; [exact Hnd |].
  apply NoDup_app; [exact Hnd | repeat constructor; simpl; tauto |].
  intros x Hx [<- | []].
  apply mapHas_In in Hx. congruence.
Qed.

Lemma NoDup_mapDelete (key : string) (t : Table) :
  NoDup (keys t) -> NoDup (keys (mapDelete key t)).
Proof.
  induction t as [| [k e] rest IH]; simpl; intros Hnd; [constructor |].
  inversion Hnd as [| ? ? Hnotin Hrest]; subst.
  destruct (k =? key); simpl; [exact Hrest |].
  constructor; [| now apply IH].
  intros Hin. apply Hnotin. now apply keys_mapDelete_incl in Hin.
Qed.

Lemma entriesFor_absent (key : string) (t : Table) :
  ~ In key (keys t) -> entriesFor key t = 0.
Proof.
  unfold entriesFor.
  induction t as [| [k e] rest IH]; simpl; intros Hnotin; [reflexivity |].
  destruct (String.eqb_spec k key) as [-> | _]; [tauto |].
  apply IH. tauto.
Qed.

Lemma entriesFor_NoDup (key : string) (t : Table) :
  NoDup (keys t) -> entriesFor key t <= 1.
Proof.
  induction t as [| [k e] rest IH]; simpl; intros Hnd.
  - unfold entriesFor. simpl. lia.
  - inversion Hnd as [| ? ? Hnotin Hrest]; subst.
    unfold entriesFor in *. simpl.
    destruct (String.eqb_spec k key) as [-> | _]; simpl.
    + pose proof (entriesFor_absent key rest Hnotin) as Hzero.
      unfold entriesFor in Hzero. lia.
    + now apply IH.
Qed.

(** Every command keeps the keys of the table distinct. *)
Lemma exec_NoDup (c : Command) (s : Service) :
  NoDup (keys (runningFeatures s)) -> NoDup (keys (runningFeatures (exec c s))).
Proof.
  intros Hnd. destruct c; simpl.
  - unfold startAutoLoop. now destruct (autoLoop s).
  - unfold stopAutoLoop. now destruct (autoLoop s).
  - unfold startFeature. destruct (mapHas _ _); simpl; [exact Hnd |].
    now apply NoDup_mapSet.
  - unfold scheduleFeature. destruct (autoLoop s) as [cfg |]; [| exact Hnd].
    destruct (Nat.ltb _ _); [| exact Hnd].
    unfold startFeature. destruct (mapHas _ _); simpl; [exact Hnd |].
    now apply NoDup_mapSet.
  - now apply NoDup_mapDelete.
  - now apply NoDup_mapDelete.
  - now apply NoDup_mapSet.
Qed.

Lemma run_NoDup (cmds : list Command) (s : Service) :
  NoDup (keys (runningFeatures s)) ->
  NoDup (keys (runningFeatures (run cmds s))).
Proof.
  revert s. induction cmds as [| c rest IH]; intros s Hnd; simpl; [exact Hnd |].
  apply IH. now apply exec_NoDup.
Qed.

(** C1: in every state the service can reach, whatever the interleaving
    of start attempts, schedulings, completions and stops, the
    running-features table holds at most one entry per feature id; a start
    attempt for a feature that is in the table is refused and changes
    nothing. *)
Theorem single_flight (s : Service) :
  reachable s ->
  (forall fid, entriesFor fid (runningFeatures s) <= 1)
  /\ (forall fid project auto,
        mapHas fid (runningFeatures s) = true ->
        snd (startFeature fid project auto s) = s
        /\ exists e, fst (startFeature fid project auto s) = Throw e).
Proof.
  intros [cmds ->]. split.
  - intros fid. apply entriesFor_NoDup, run_NoDup. constructor.
  - intros fid project auto Hhas. unfold startFeature. rewrite Hhas. simpl.
    split; [reflexivity | eexists; reflexivity].
Qed.

(** Three start attempts for one feature, from a caller and from the
    loop. *)
Lemma single_flight_witness :
  entriesFor "feature-1"
    (runningFeatures
       (run [ CallStartAutoLoop "/test/project" 3;
              CallStartFeature "feature-1" "/test/project" false;
              LoopSchedules "feature-1";
              CallStartFeature "feature-1" "/test/project" true;
              LoopSchedules "feature-2" ] initial)) <= 1.
Proof.
  exact (proj1 (single_flight _ (ex_intro _
    [ CallStartAutoLoop "/test/project" 3;
      CallStartFeature "feature-1" "/test/project" false;
      LoopSchedules "feature-1";
      CallStartFeature "feature-1" "/test/project" true;
      LoopSchedules "feature-2" ] eq_refl)) "feature-1").
Defined.

End RunningFeaturesTable.

Section AutoLoop.

(** C7: while a loop is active, [startAutoLoop] is rejected with the
    already-running error and the service, with the first loop in it, is
    left exactly as it was; in particular the second of two calls on an
    idle service is rejected and the first call's loop stays. *)
Theorem second_startAutoLoop_rejected (s : Service) (cfg : LoopConfig)
    (project : string) (limit : nat) :
  autoLoop s = Some cfg ->
  startAutoLoop project limit s = (Throw alreadyRunning, s)
  /\ includes (messageOf alreadyRunning) "already running" = true
  /\ (forall idle firstProject firstLimit,
        autoLoop idle = None ->
        let first := startAutoLoop firstProject firstLimit idle in
        fst first = Normal tt
        /\ autoLoop (snd first)
           = Some {| loopProjectPath := firstProject; maxConcurrency := firstLimit |}
        /\ startAutoLoop project limit (snd first) = (Throw alreadyRunning, snd first)).
Proof.
  intros Hactive. split; [| split].
  - unfold startAutoLoop. now rewrite Hactive.
  - reflexivity.
  - intros idle firstProject firstLimit Hidle. cbv zeta.
    unfold startAutoLoop. rewrite Hidle. simpl. repeat split.
Qed.

(** The two calls of the unit test. *)
Lemma second_startAutoLoop_rejected_witness :
  startAutoLoop "/test/project" 3 (snd (startAutoLoop "/test/project" 3 initial))
  = (Throw alreadyRunning, snd (startAutoLoop "/test/project" 3 initial)).
Proof.
  exact (proj1 (second_startAutoLoop_rejected
    (snd (startAutoLoop "/test/project" 3 initial))
    {| loopProjectPath := "/test/project"; maxConcurrency := 3 |}
    "/test/project" 3 eq_refl)).
Defined.

End AutoLoop.

Section RunningAgents.

Lemma append_empty (s : string) : s ++ "" = s.
Proof. induction s as [| c rest IH]; simpl; [reflexivity | now rewrite IH]. Qed.

Lemma append_assoc (a b c : string) : (a ++ b) ++ c = a ++ (b ++ c).
Proof. induction a as [| x rest IH]; simpl; [reflexivity | now rewrite IH]. Qed.

Lemma includes_cons_other (c : ascii) (seg : string) :
  c <> "/"%char -> includes (String c seg) "/" = includes seg "/".
Proof.
  intros Hc.
  change (includes (String c seg) "/")
    with (if String.prefix "/" (String c seg) then true else includes seg "/").
  change (String.prefix "/" (String c seg))
    with (if ascii_dec "/" c then String.prefix "" seg else false).
  destruct (ascii_dec "/" c); [congruence | reflexivity].
Qed.


(** Splitting loses nothing: the segments hold no separator and joining
    them gives the path back. *)
Lemma segments_spec (path : string) :
  exists seg more,
    segments path = seg :: more
    /\ Forall Wording.noSlash (seg :: more)
    /\ path = seg ++ slashJoined more.
Proof.
  induction path as [| c rest IH]; simpl.
  - exists "", []. repeat split. repeat constructor.
  - destruct IH as [seg [more [Hsegs [Hclean Hjoin]]]].
    destruct (Ascii.eqb_spec c "/"%char) as [-> | Hc].
    + exists "", (seg :: more). rewrite Hsegs. repeat split.
      * constructor; [reflexivity | exact Hclean].
      * simpl. now rewrite <- Hjoin.
    + exists (String c seg), more. rewrite Hsegs. repeat split.
      * inversion Hclean as [| ? ? Hseg Hmore]; subst.
        constructor; [| exact Hmore].
        unfold Wording.noSlash in *. now rewrite includes_cons_other.
      * simpl. now rewrite <- Hjoin.
Qed.

Lemma last_of_joined (more : list string) (seg : string) :
  Forall Wording.noSlash (seg :: more) ->
  Wording.isFinalSegmentOf (last (seg :: more) "") (seg ++ slashJoined more).
Proof.
  revert seg. induction more as [| next rest IH]; intros seg Hclean.
  - inversion Hclean; subst. split; [assumption |].
    exists "". simpl. rewrite append_empty. split; [reflexivity | now left].
  - inversion Hclean as [| ? ? _ Hrest]; subst.
    destruct (IH next Hrest) as [Hlast [dir [Hpath Hdir]]].
    change (last (seg :: next :: rest) "") with (last (next :: rest) "").
    split; [exact Hlast |].
    exists (seg ++ "/" ++ dir). split.
    + simpl slashJoined. rewrite !append_assoc.
      change ("/" ++ next ++ slashJoined rest)
        with ("/" ++ (next ++ slashJoined rest)).
      rewrite Hpath. reflexivity.
    + right. destruct Hdir as [-> | [parent ->]].
      * exists seg. reflexivity.
      * exists (seg ++ "/" ++ parent). now rewrite !append_assoc.
Qed.

Lemma finalSegment_spec (path : string) :
  Wording.isFinalSegmentOf (finalSegment path) path.
Proof.
  destruct (segments_spec path) as [seg [more [Hsegs [Hclean Hjoin]]]].
  unfold finalSegment. rewrite Hsegs.
  pose proof (last_of_joined more seg Hclean) as Hlast.
  now rewrite <- Hjoin in Hlast.
Qed.

Variable featureLoaderGet : string -> string -> Completion (option Feature).

(** C8: [getRunningAgents] always returns: one agent per entry of the
    table, in the table's order, with the entry's own fields, the final
    segment of its project path as project name, the stored title and
    description when the lookup finds the feature, and both undefined when
    the lookup raises or finds nothing. *)
Theorem getRunningAgents_swallows_lookup_failures (s : Service) :
  exists agents,
    getRunningAgents featureLoaderGet s = Normal agents
    /\ Forall2
         (fun rf agent =>
            agentFeatureId agent = featureId rf
            /\ agentProjectPath agent = projectPath rf
            /\ agentIsAutoMode agent = isAutoMode rf
            /\ projectName agent = finalSegment (agentProjectPath agent)
            /\ Wording.isFinalSegmentOf (projectName agent) (agentProjectPath agent)
            /\ match featureLoaderGet (projectPath rf) (featureId rf) with
               | Normal (Some feature) =>
                   agentTitle agent = title feature
                   /\ agentDescription agent = description feature
               | Normal None | Throw _ =>
                   agentTitle agent = None /\ agentDescription agent = None
               end)
         (map snd (runningFeatures s)) agents.
Proof.
  unfold getRunningAgents.
  induction (map snd (runningFeatures s)) as [| rf rest [agents [Hrun Hall]]]; simpl.
  - exists []. split; [reflexivity | constructor].
  - rewrite Hrun. simpl. eexists. split; [reflexivity |].
    constructor; [| exact Hall]. simpl.
    repeat (split; [reflexivity |]).
    split; [apply finalSegment_spec |].
    unfold tryLookup.
    destruct (featureLoaderGet (projectPath rf) (featureId rf)) as [[feature |] | e];
      split; reflexivity.
Qed.

End RunningAgents.

(** The failing lookup of the unit test: the entry comes back with its
    project name and without title or description. *)
Lemma getRunningAgents_database_failure :
  getRunningAgents (fun _ _ => Throw (PlainError "Database connection failed"))
    {| autoLoop := None;
       runningFeatures :=
         [ ("feature-error",
            {| featureId := "feature-error"; projectPath := "/project-error";
               isAutoMode := true |}) ];
       emitted := [] |}
  = Normal [ {| agentFeatureId := "feature-error";
                agentProjectPath := "/project-error";
                projectName := "project-error";
                agentIsAutoMode := true;
                agentTitle := None;
                agentDescription := None |} ].
Proof. reflexivity. Qed.

Lemma finalSegment_nested :
  finalSegment "/home/user/workspace/projects/my-awesome-project" = "my-awesome-project".
Proof. reflexivity. Qed.

(* ===================================================================== *)
(** ** Further properties of the provider *)
(* ===================================================================== *)

Section EventShape.

Lemma orElse_truthy (a b : value) : truthy b = true -> truthy (orElse a b) = true.
Proof. intros Hb. unfold orElse. now destruct (truthy a) eqn:Ha. Qed.

Ltac shaped :=
  intros Hm; inversion Hm; subst; clear Hm; simpl;
  split; [reflexivity | try reflexivity; try (apply orElse_truthy; reflexivity)].

(** The conversion of [v] ended normally, or nothing was returned. *)
Ltac printed v :=
  destruct (toString v); cbn [bind]; [| discriminate].

(** X1: every message [normalizeEvent] returns carries the event's own
    [session_id] field, untouched, and has the shape consumers rely on:
    an assistant message with exactly one content block, a success
    result, or an error whose text is not empty. *)
Theorem normalizeEvent_message_shape (event : value) (m : ProviderMessage) :
  normalizeEvent event = Normal (Some m) ->
  session_id m = getFieldOpt event "session_id"
  /\ Behaviour.wellFormedBody (body m).
Proof.
  destruct event as [| | b | n | s | items | props]; try discriminate.
  unfold normalizeEvent. simpl getField. simpl getFieldOpt. cbn [bind].
  destruct (isStr (lookup "type" props) "init") eqn:Hinit.
  { printed (lookup "session_id" props). printed (lookup "model" props).
    discriminate. }
  destruct (isStr (lookup "type" props) "message") eqn:Hmessage.
  { destruct (isStr (lookup "role" props) "user"); [discriminate |].
    destruct (isStr (lookup "role" props) "assistant"); [shaped | discriminate]. }
  destruct (isStr (lookup "type" props) "tool_use") eqn:Htool.
  { destruct (normalizeGeminiToolName _) as [name | e]; cbn [bind];
      [| discriminate].
    destruct (normalizeGeminiToolInput _ _) as [out | e]; cbn [bind];
      [shaped | discriminate]. }
  destruct (isStr (lookup "type" props) "tool_result") eqn:Hresult.
  { destruct (isStr (lookup "status" props) "error"); cbn [bind]; [| shaped].
    printed (lookup "output" props). shaped. }
  destruct (isStr (lookup "type" props) "result") eqn:Hdone.
  { destruct (isStr (lookup "status" props) "error"); [shaped |].
    printed (lookup "status" props).
    printed (getFieldOpt (lookup "stats" props) "total_tokens"). shaped. }
  destruct (isStr (lookup "type" props) "error") eqn:Herror; [shaped |].
  printed (lookup "type" props). discriminate.
Qed.

(** A tool result that failed: the id is kept and the text is marked. *)
Lemma normalizeEvent_message_shape_witness :
  session_id
    {| session_id := VStr "s7";
       body := AssistantMessage
                 [ ToolResultBlock (VStr "t1") (VStr "[ERROR] no such file") ] |}
  = getFieldOpt
      (VObj [ ("type", VStr "tool_result"); ("session_id", VStr "s7");
              ("tool_id", VStr "t1"); ("status", VStr "error");
              ("output", VStr "no such file") ])
      "session_id"
  /\ Behaviour.wellFormedBody
       (AssistantMessage [ ToolResultBlock (VStr "t1") (VStr "[ERROR] no such file") ]).
Proof.
  exact (normalizeEvent_message_shape
    (VObj [ ("type", VStr "tool_result"); ("session_id", VStr "s7");
            ("tool_id", VStr "t1"); ("status", VStr "error");
            ("output", VStr "no such file") ])
    {| session_id := VStr "s7";
       body := AssistantMessage
                 [ ToolResultBlock (VStr "t1") (VStr "[ERROR] no such file") ] |}
    eq_refl).
Defined.

End EventShape.

Section ToolNames.

Lemma assoc_In (key standard : string) (table : list (string * string)) :
  assoc key table = Some standard -> In standard (map snd table).
Proof.
  induction table as [| [k v] rest IH]; simpl; [discriminate |].
  destruct (k =? key); [intros H; inversion H; now left | intros H; right; auto].
Qed.

(** X2: normalizing a tool name twice changes nothing more: whenever
    [normalizeGeminiToolName] answers a name, that name is its own
    normal form (no standard name is itself a vendor name). *)
Theorem normalizeGeminiToolName_idempotent (geminiToolName standard : value) :
  normalizeGeminiToolName geminiToolName = Normal (Named standard) ->
  normalizeGeminiToolName standard = Normal (Named standard).
Proof.
  unfold normalizeGeminiToolName at 1.
  destruct (toString geminiToolName) as [key | e] eqn:Hkey; cbn [bind];
    [| discriminate].
  destruct (assoc key GEMINI_TOOL_NAME_MAP) as [known |] eqn:Hknown.
  - intros H. inversion H; subst; clear H.
    apply assoc_In in Hknown. simpl in Hknown.
    repeat (destruct Hknown as [<- | Hknown]; [reflexivity |]).
    contradiction.
  - destruct (existsb _ objectPrototypeKeys) eqn:Hproto; [discriminate |].
    intros H. inversion H; subst; clear H.
    unfold normalizeGeminiToolName. rewrite Hkey. cbn [bind].
    now rewrite Hknown, Hproto.
Qed.

(** [read_many_files] becomes [Read], and [Read] stays [Read]. *)
Lemma normalizeGeminiToolName_idempotent_witness :
  normalizeGeminiToolName (VStr "Read") = Normal (Named (VStr "Read")).
Proof.
  exact (normalizeGeminiToolName_idempotent (VStr "read_many_files") (VStr "Read") eq_refl).
Defined.

Lemma mapM_length {A B} (f : A -> Completion B) (l : list A) (out : list B) :
  mapM f l = Normal out -> length out = length l.
Proof.
  revert out. induction l as [| a rest IH]; simpl; intros out H.
  - inversion H. reflexivity.
  - destruct (f a) as [b | e]; simpl in H; [| discriminate].
    destruct (mapM f rest) as [bs | e]; simpl in H; [| discriminate].
    inversion H; subst. simpl. now rewrite (IH bs eq_refl).
Qed.

Lemma mapM_Forall {A B} (f : A -> Completion B) (P : B -> Prop) (l : list A)
    (out : list B) :
  (forall a b, f a = Normal b -> P b) ->
  mapM f l = Normal out -> Forall P out.
Proof.
  intros Hf. revert out. induction l as [| a rest IH]; simpl; intros out H.
  - inversion H. constructor.
  - destruct (f a) as [b | e] eqn:Hfa; simpl in H; [| discriminate].
    destruct (mapM f rest) as [bs | e]; simpl in H; [| discriminate].
    inversion H; subst. constructor; [now apply (Hf a) | now apply IH].
Qed.

Lemma normalizeTodo_notCancelled (todo out : value) :
  normalizeTodo todo = Normal out -> Behaviour.notCancelled out.
Proof.
  unfold normalizeTodo.
  destruct (getField todo "description") as [d | e]; [| discriminate].
  destruct (getField todo "status") as [st | e]; [| discriminate].
  cbn [bind]. intros H. inversion H; subst; clear H.
  unfold Behaviour.notCancelled. simpl.
  destruct (isStr st "cancelled") eqn:Hst; [reflexivity | exact Hst].
Qed.

(** X3: whenever the todos of a [write_todos] call are normalized, the
    result holds as many todos as the input, in a fresh [todos] object,
    and none of them has the status [cancelled]. *)
Theorem normalized_todos_never_cancelled (input out : value) (items : list value) :
  getFieldOpt input "todos" = VArr items ->
  normalizeGeminiToolInput (VStr "write_todos") input = Normal out ->
  exists todos,
    out = VObj [ ("todos", VArr todos) ]
    /\ length todos = length items
    /\ Forall Behaviour.notCancelled todos.
Proof.
  intros Htodos. unfold normalizeGeminiToolInput. simpl.
  destruct input; simpl in Htodos; try discriminate.
  simpl. rewrite Htodos.
  destruct (mapM normalizeTodo items) as [todos |] eqn:Hmap; [| discriminate].
  cbn [bind]. intros H. inversion H; subst; clear H.
  exists todos. split; [reflexivity |]. split.
  - exact (mapM_length _ _ _ Hmap).
  - exact (mapM_Forall _ _ _ _ normalizeTodo_notCancelled Hmap).
Qed.

(** Two todos, one of them cancelled and without a description. *)
Lemma normalized_todos_never_cancelled_witness :
  exists todos,
    VObj [ ("todos",
            VArr [ VObj [ ("content", VStr ""); ("status", VStr "completed");
                          ("activeForm", VStr "") ];
                   VObj [ ("content", VStr "Ship"); ("status", VStr "pending");
                          ("activeForm", VStr "Ship") ] ]) ]
    = VObj [ ("todos", VArr todos) ]
    /\ length todos = 2
    /\ Forall Behaviour.notCancelled todos.
Proof.
  exact (normalized_todos_never_cancelled
    (VObj [ ("todos",
             VArr [ VObj [ ("status", VStr "cancelled") ];
                    VObj [ ("description", VStr "Ship"); ("status", VStr "pending") ] ]) ])
    _
    [ VObj [ ("status", VStr "cancelled") ];
      VObj [ ("description", VStr "Ship"); ("status", VStr "pending") ] ]
    eq_refl eq_refl).
Defined.

End ToolNames.

Section MapErrorInvariants.
Context {host : Host}.

(** X4: whatever the text and the exit code, [mapError] marks every
    classification except UNKNOWN as recoverable and gives it a
    suggestion, gives UNKNOWN no suggestion, and never leaves the message
    empty (an empty stderr is replaced by the exit code). *)
Theorem mapError_recoverable_unless_unknown (stderr : string) (exitCode : option Z) :
  let info := mapError stderr exitCode in
  (recoverable info = true <-> code info <> UNKNOWN)
  /\ (suggestion info = None <-> code info = UNKNOWN)
  /\ message info <> "".
Proof.
  cbv zeta. unfold mapError. cbv zeta.
  destruct (authHeuristic _);
    [simpl; repeat split; intros; try discriminate; auto |].
  destruct (rateLimitHeuristic _);
    [simpl; repeat split; intros; try discriminate; auto |].
  destruct (modelHeuristic _);
    [simpl; repeat split; intros; try discriminate; auto |].
  destruct (networkHeuristic _);
    [simpl; repeat split; intros; try discriminate; auto |].
  destruct (crashHeuristic _ _);
    [simpl; repeat split; intros; try discriminate; auto |].
  simpl. repeat split; intros; try discriminate; auto.
  destruct (String.eqb_spec stderr "") as [-> | Hne]; simpl; [discriminate | exact Hne].
Qed.

End MapErrorInvariants.

Section QuerySetupAndStream.
Context {host : Host}.

(** X5: with a model id that passes the check, [executeQuery] on a
    machine without the CLI raises a recoverable NOT_INSTALLED error that
    carries the install instructions, and with the CLI but a prompt that
    is neither a string nor an array raises the plain format error; in
    both cases nothing is yielded and [mapError] is not consulted. *)
Theorem executeQuery_setup_failures (cliPath : option string) (options : ExecuteOptions) :
  validateBareModelId (model options) = Normal tt ->
  (present cliPath = false ->
     executeQuery cliPath options
     = {| yielded := []; mapErrorCalls := [];
          outcome := Throw (GeminiError NOT_INSTALLED "Gemini CLI is not installed"
                              true (Some getInstallInstructions)) |})
  /\ (present cliPath = true -> prompt options = PromptInvalid ->
        executeQuery cliPath options
        = {| yielded := []; mapErrorCalls := [];
             outcome := Throw (PlainError "Invalid prompt format") |}).
Proof.
  intros Hmodel. unfold executeQuery, prepare. rewrite Hmodel. cbn [bind]. split.
  - intros ->. reflexivity.
  - intros -> Hprompt. cbn [bind]. unfold queryArgv, extractPromptText.
    now rewrite Hprompt.
Qed.




(** The bodies that go out are the bodies normalization gives, as far as
    the loop gets. *)
Lemma consume_bodies (evs : list value) (sid : value) (ending : option Thrown) :
  exists rest,
    Behaviour.normalizedBodies evs
      = (map body (fst (consume sid evs ending)) ++ rest)%list
    /\ (snd (consume sid evs None) = None -> rest = []).
Proof.
  revert sid. induction evs as [| event more IH]; intros sid; simpl.
  - exists []. split; [reflexivity | reflexivity].
  - destruct (stepEvent sid event) as [[sid1 out] | e] eqn:Hstep.
    + destruct (stepEvent_inv _ _ _ _ Hstep) as [_ Hout].
      destruct (IH sid1) as [rest [Hbodies Hclean]].
      destruct out as [m |].
      * destruct Hout as [m0 [Hnorm [Hbody _]]]. rewrite Hnorm.
        exists rest. destruct (consume sid1 more ending) as [ys r].
        destruct (consume sid1 more None) as [ys' r']. simpl in *.
        split; [now rewrite Hbody, Hbodies | exact Hclean].
      * rewrite Hout. exists rest. simpl. split; [exact Hbodies | exact Hclean].
    + eexists. simpl. split; [reflexivity | discriminate].
Qed.

(** X6: the messages [executeQuery] yields keep the stream's order and
    the bodies [normalizeEvent] gives (only session ids are filled in):
    their bodies are always an initial part of the normalized bodies of
    the events, all of them when no event raises; and a stream that then
    ends normally ends the generator normally. *)
Theorem executeQuery_yields_in_stream_order (cliPath : option string)
    (options : ExecuteOptions) (args : list string) :
  prepare cliPath options = Normal args ->
  let stream := spawnJSONLProcess options args in
  let run := executeQuery cliPath options in
  (exists rest,
     Behaviour.normalizedBodies (events stream)
     = (map body (yielded run) ++ rest)%list)
  /\ (snd (consume VUndefined (events stream) None) = None ->
      map body (yielded run) = Behaviour.normalizedBodies (events stream)
      /\ (failure stream = None -> outcome run = Normal tt)).
Proof.
  intros Hprep. cbv zeta.
  rewrite (executeQuery_yielded _ _ _ Hprep).
  destruct (consume_bodies (events (spawnJSONLProcess options args)) VUndefined
              (failure (spawnJSONLProcess options args))) as [rest [Hbodies Hclean]].
  split; [now exists rest |].
  intros Hok. rewrite Hbodies, (Hclean Hok), app_nil_r. split; [reflexivity |].
  intros Hend. unfold executeQuery. rewrite Hprep.
  rewrite (consume_ending _ _ _ Hok), Hend. reflexivity.
Qed.


(** X8: a stream failure that is not an abort and is not an Error
    carrying stderr leaves [executeQuery] as it came, with no call to
    [mapError]. *)
Theorem other_failures_pass_through (cliPath : option string)
    (options : ExecuteOptions) (args : list string) (evs : list value) (e : Thrown) :
  prepare cliPath options = Normal args ->
  spawnJSONLProcess options args = {| events := evs; failure := Some e |} ->
  snd (consume VUndefined evs None) = None ->
  isAbortError e = false ->
  isErrorInstance e = false \/ stderrOf e = None ->
  let run := executeQuery cliPath options in
  outcome run = Throw e /\ mapErrorCalls run = [].
Proof.
  intros Hprep Hspawn Hevents Habort Hkind. cbv zeta.
  unfold executeQuery. rewrite Hprep, Hspawn. simpl.
  rewrite (consume_ending evs VUndefined (Some e) Hevents).
  unfold catchBlock. rewrite Habort.
  destruct Hkind as [Hkind | Hkind]; rewrite Hkind.
  - split; reflexivity.
  - destruct (isErrorInstance e); split; reflexivity.
Qed.

End QuerySetupAndStream.

(** No CLI on the machine. *)
Lemma executeQuery_setup_failures_witness :
  executeQuery (host := Sample.quietHost) None Sample.sampleOptions
  = {| yielded := []; mapErrorCalls := [];
       outcome := Throw (GeminiError NOT_INSTALLED "Gemini CLI is not installed"
                           true (Some getInstallInstructions)) |}.
Proof.
  exact (proj1 (executeQuery_setup_failures (host := Sample.quietHost)
                  None Sample.sampleOptions eq_refl) eq_refl).
Defined.

(** A clean stream of three events, two of which produce a message. *)
Lemma executeQuery_yields_in_stream_order_witness :
  map body
    (yielded (executeQuery
                (host := Sample.hostProducing
                           {| events := [ Sample.initEvent "s1";
                                          Sample.assistantEvent "one";
                                          Sample.assistantEvent "two" ];
                              failure := None |})
                (Some "/usr/local/bin/gemini") Sample.sampleOptions))
  = Behaviour.normalizedBodies
      [ Sample.initEvent "s1"; Sample.assistantEvent "one"; Sample.assistantEvent "two" ].
Proof.
  exact (proj1 (proj2 (executeQuery_yields_in_stream_order
    (host := Sample.hostProducing
               {| events := [ Sample.initEvent "s1"; Sample.assistantEvent "one";
                              Sample.assistantEvent "two" ];
                  failure := None |})
    (Some "/usr/local/bin/gemini") Sample.sampleOptions
    [ "--output-format"; "stream-json"; "--model"; "gemini-2.5-flash";
      "--sandbox"; "false"; "--approval-mode"; "yolo";
      "--include-directories"; "/home/user/project"; "fix the bug" ]
    eq_refl) eq_refl)).
Defined.


(** A spawn failure that carries no stderr. *)
Lemma other_failures_pass_through_witness :
  let e := Raised {| instanceOfError := true; raisedName := "Error";
                     raisedMessage := "spawn gemini ENOENT";
                     raisedStderr := None; raisedExitCode := None |} in
  let run := executeQuery
               (host := Sample.hostProducing {| events := []; failure := Some e |})
               (Some "/usr/local/bin/gemini") Sample.sampleOptions in
  outcome run = Throw e /\ mapErrorCalls run = [].
Proof.
  exact (other_failures_pass_through
    (host := Sample.hostProducing
               {| events := [];
                  failure := Some (Raised {| instanceOfError := true; raisedName := "Error";
                                             raisedMessage := "spawn gemini ENOENT";
                                             raisedStderr := None;
                                             raisedExitCode := None |}) |})
    (Some "/usr/local/bin/gemini") Sample.sampleOptions
    [ "--output-format"; "stream-json"; "--model"; "gemini-2.5-flash";
      "--sandbox"; "false"; "--approval-mode"; "yolo";
      "--include-directories"; "/home/user/project"; "fix the bug" ]
    [] _ eq_refl eq_refl eq_refl eq_refl (or_intror eq_refl)).
Defined.

Section CheckAuthBehaviour.

(** X9: with the CLI detected and no API key in the environment,
    Vertex AI credentials in the environment decide: the answer is
    authenticated with method [vertex_ai], whatever the settings file
    selects, Code Assist or a malformed entry included. *)
Theorem checkAuth_vertex_before_settings (cliPath : option string) (env : Env)
    (file : SettingsFile) :
  present cliPath = true ->
  present (GEMINI_API_KEY env) = false ->
  Behaviour.hasVertexAi env = true ->
  exists status,
    checkAuth cliPath env file = Normal status
    /\ authenticated status = true
    /\ method status = vertex_ai
    /\ hasApiKey status = Some false
    /\ error status = None.
Proof.
  intros Hcli Hkey Hvertex. unfold checkAuth.
  unfold Behaviour.hasVertexAi in Hvertex.
  rewrite Hcli, Hkey, Hvertex. simpl.
  eexists. split; [reflexivity |]. simpl. repeat split.
Qed.

(** A project id in the environment, Code Assist in the settings. *)
Lemma checkAuth_vertex_before_settings_witness :
  exists status,
    checkAuth (Some "/usr/local/bin/gemini")
      {| GEMINI_API_KEY := None;
         GOOGLE_APPLICATION_CREDENTIALS := None;
         GOOGLE_CLOUD_PROJECT := Some "my-project" |}
      (ParsedSettings
        (VObj [ ("security",
                 VObj [ ("auth", VObj [ ("selectedType", VStr "code-assist") ]) ]) ]))
      = Normal status
    /\ authenticated status = true
    /\ method status = vertex_ai
    /\ hasApiKey status = Some false
    /\ error status = None.
Proof.
  exact (checkAuth_vertex_before_settings (Some "/usr/local/bin/gemini")
    {| GEMINI_API_KEY := None;
       GOOGLE_APPLICATION_CREDENTIALS := None;
       GOOGLE_CLOUD_PROJECT := Some "my-project" |}
    _ eq_refl eq_refl eq_refl).
Defined.

(** X10: whenever [checkAuth] answers for a detected CLI, the answer is
    coherent: it carries an error text exactly when it is not
    authenticated, method [none] never comes with authenticated, methods
    [api_key] and [vertex_ai] always do, and the two API-key flags
    agree. *)
Theorem checkAuth_answer_is_coherent (cliPath : option string) (env : Env)
    (file : SettingsFile) (status : GeminiAuthStatus) :
  present cliPath = true ->
  checkAuth cliPath env file = Normal status ->
  (authenticated status = false <-> error status <> None)
  /\ (method status = none -> authenticated status = false)
  /\ (method status = api_key \/ method status = vertex_ai ->
      authenticated status = true)
  /\ hasApiKey status = hasEnvApiKey status.
Proof.
  intros Hcli. unfold checkAuth. rewrite Hcli. simpl.
  destruct (present (GEMINI_API_KEY env));
    [intros H; inversion H; subst; clear H; simpl;
     repeat split; intros; try discriminate; intuition congruence |].
  destruct (present (GOOGLE_APPLICATION_CREDENTIALS env)
            || present (GOOGLE_CLOUD_PROJECT env));
    [intros H; inversion H; subst; clear H; simpl;
     repeat split; intros; try discriminate; intuition congruence |].
  destruct (selectedAuthType file) as [[| | b | n | t | items | props] |];
    try discriminate;
    [| intros H; inversion H; subst; clear H; simpl;
       repeat split; intros; try discriminate; intuition congruence].
  destruct (startsWith t "oauth");
    [intros H; inversion H; subst; clear H; simpl;
     repeat split; intros; try discriminate; intuition congruence |].
  destruct (t =? "api-key");
    [intros H; inversion H; subst; clear H; simpl;
     repeat split; intros; try discriminate; intuition congruence |].
  destruct ((t =? "code-assist") || (t =? "codeassist"));
    intros H; inversion H; subst; clear H; simpl;
    repeat split; intros; try discriminate; intuition congruence.
Qed.

(** Code Assist in the settings and nothing in the environment. *)
Lemma checkAuth_answer_is_coherent_witness :
  let status :=
    {| authenticated := false; method := google_login;
       hasApiKey := Some false; hasEnvApiKey := Some false;
       hasCredentialsFile := Some true;
       error := Some ("Code Assist authentication requires IDE integration. Please use "
                      ++ dq ++ "gemini" ++ dq
                      ++ " CLI to log in with a different method, or set GEMINI_API_KEY.") |} in
  (authenticated status = false <-> error status <> None)
  /\ (method status = none -> authenticated status = false)
  /\ (method status = api_key \/ method status = vertex_ai ->
      authenticated status = true)
  /\ hasApiKey status = hasEnvApiKey status.
Proof.
  exact (checkAuth_answer_is_coherent (Some "/usr/local/bin/gemini")
    {| GEMINI_API_KEY := None; GOOGLE_APPLICATION_CREDENTIALS := None;
       GOOGLE_CLOUD_PROJECT := None |}
    (ParsedSettings
       (VObj [ ("security",
                VObj [ ("auth", VObj [ ("selectedType", VStr "code-assist") ]) ]) ]))
    {| authenticated := false; method := google_login;
       hasApiKey := Some false; hasEnvApiKey := Some false;
       hasCredentialsFile := Some true;
       error := Some ("Code Assist authentication requires IDE integration. Please use "
                      ++ dq ++ "gemini" ++ dq
                      ++ " CLI to log in with a different method, or set GEMINI_API_KEY.") |}
    eq_refl eq_refl).
Defined.

(** X11: [checkAuth] raises in exactly one situation: the CLI is
    detected, the environment holds neither an API key nor Vertex AI
    credentials, and the settings file selects an authentication type
    that is truthy but not a string (it has no [startsWith]). *)
Theorem checkAuth_raises_exactly (cliPath : option string) (env : Env)
    (file : SettingsFile) :
  (exists e, checkAuth cliPath env file = Throw e)
  <-> Behaviour.checkAuthRaises cliPath env file = true.
Proof.
  unfold Behaviour.checkAuthRaises, Behaviour.hasVertexAi, Behaviour.selectsNonString,
    checkAuth.
  destruct (present cliPath); simpl;
    [| split; [intros [e H] |]; discriminate].
  destruct (present (GEMINI_API_KEY env)); simpl;
    [split; [intros [e H] |]; discriminate |].
  destruct (present (GOOGLE_APPLICATION_CREDENTIALS env)
            || present (GOOGLE_CLOUD_PROJECT env)); simpl;
    [split; [intros [e H] |]; discriminate |].
  destruct (selectedAuthType file) as [[| | b | n | t | items | props] |];
    try (split; [reflexivity | intros _; eexists; reflexivity]).
  - destruct (startsWith t "oauth"); [split; [intros [e H] |]; discriminate |].
    destruct (t =? "api-key"); [split; [intros [e H] |]; discriminate |].
    destruct ((t =? "code-assist") || (t =? "codeassist"));
      split; try (intros [e H]); discriminate.
  - split; [intros [e H] |]; discriminate.
Qed.

End CheckAuthBehaviour.

Section CommandLine.

Lemma prefixed_startsWith (m : string) : startsWith ("gemini-" ++ m) "gemini-" = true.
Proof.
  unfold startsWith.
  apply String.prefix_correct. simpl.
  repeat f_equal. now destruct m.
Qed.

(** X12: for every options value the command line starts with
    [--output-format stream-json] and holds [--sandbox false
    --approval-mode yolo]; between them comes either nothing, exactly when
    the model id is [auto], or [--model] with a name that starts with
    [gemini-]; after them comes [--include-directories <cwd>] exactly when
    a working directory is given. *)
Theorem buildCliArgs_shape (options : ExecuteOptions) :
  exists modelPart dirPart,
    buildCliArgs options = Behaviour.argvAround modelPart dirPart
    /\ (modelPart = [] <-> model options = Some "auto")
    /\ (modelPart = []
        \/ exists cliModel, modelPart = [ "--model"; cliModel ]
                            /\ startsWith cliModel "gemini-" = true)
    /\ (dirPart = [] <-> present (cwd options) = false)
    /\ (dirPart = []
        \/ exists dir, cwd options = Some dir
                       /\ dirPart = [ "--include-directories"; dir ]).
Proof.
  unfold buildCliArgs, Behaviour.argvAround. cbv zeta.
  set (bareModel := if present (model options)
                    then match model options with Some m => m | None => "" end
                    else "2.5-flash").
  assert (Hbare : bareModel <> "").
  { unfold bareModel. destruct (model options) as [m |]; simpl; [| discriminate].
    destruct (String.eqb_spec m ""); simpl; [discriminate | assumption]. }
  assert (Hauto : bareModel = "auto" <-> model options = Some "auto").
  { unfold bareModel. destruct (model options) as [m |]; simpl.
    - destruct (String.eqb_spec m "") as [-> | Hm]; simpl.
      + split; [discriminate | intros H; inversion H].
      + split; [now intros -> | intros H; now inversion H].
    - split; discriminate. }
  rewrite (eqb_false bareModel "" Hbare). simpl negb at 1. cbn [andb].
  destruct (String.eqb_spec bareModel "auto") as [Heq | Hne]; simpl negb.
  - exists [].
    destruct (cwd options) as [dir |] eqn:Hcwd; simpl.
    + destruct (String.eqb_spec dir "") as [-> | Hdir]; simpl.
      * exists []. repeat split; auto; try tauto.
      * exists [ "--include-directories"; dir ].
        split; [reflexivity |]. split; [tauto |]. split; [now left |].
        split; [split; discriminate |]. right. now exists dir.
    + exists []. repeat split; auto; try tauto.
  - exists [ "--model";
             if startsWith bareModel "gemini-" then bareModel else "gemini-" ++ bareModel ].
    assert (Hmodel : exists cliModel,
              [ "--model";
                if startsWith bareModel "gemini-" then bareModel
                else "gemini-" ++ bareModel ] = [ "--model"; cliModel ]
              /\ startsWith cliModel "gemini-" = true).
    { eexists. split; [reflexivity |].
      destruct (startsWith bareModel "gemini-") eqn:Hp;
        [exact Hp | apply prefixed_startsWith]. }
    destruct (cwd options) as [dir |] eqn:Hcwd; simpl.
    + destruct (String.eqb_spec dir "") as [-> | Hdir]; simpl.
      * exists []. split; [reflexivity |].
        split; [split; [discriminate | intros H; apply Hauto in H; contradiction] |].
        split; [now right |]. split; [tauto | now left].
      * exists [ "--include-directories"; dir ]. split; [reflexivity |].
        split; [split; [discriminate | intros H; apply Hauto in H; contradiction] |].
        split; [now right |]. split; [split; discriminate |]. right. now exists dir.
    + exists []. split; [reflexivity |].
      split; [split; [discriminate | intros H; apply Hauto in H; contradiction] |].
      split; [now right |]. split; [tauto | now left].
Qed.

Lemma In_available_model (md : GeminiSetup.ModelDefinition) :
  In md GeminiSetup.getAvailableModels ->
  startsWith (GeminiSetup.modelString md) "gemini-" = true
  /\ GeminiSetup.modelString md = GeminiSetup.id md
  /\ GeminiSetup.id md <> "auto".
Proof.
  unfold GeminiSetup.getAvailableModels. simpl.
  intros Hin.
  repeat (destruct Hin as [<- | Hin];
          [simpl; repeat split; discriminate |]).
  contradiction.
Qed.

(** X13: the provider and the model table agree: with no model given
    the command line asks for [DEFAULT_GEMINI_MODEL], which is one of the
    table's ids, and given the model string of any available model it
    asks for exactly that model's id, without a second prefix. *)
Theorem buildCliArgs_agrees_with_model_table (options : ExecuteOptions) :
  In GeminiSetup.DEFAULT_GEMINI_MODEL GeminiSetup.getAllGeminiModelIds
  /\ (present (model options) = false ->
      firstn 4 (buildCliArgs options)
      = [ "--output-format"; "stream-json"; "--model"; GeminiSetup.DEFAULT_GEMINI_MODEL ])
  /\ (forall md,
        In md GeminiSetup.getAvailableModels ->
        model options = Some (GeminiSetup.modelString md) ->
        firstn 4 (buildCliArgs options)
        = [ "--output-format"; "stream-json"; "--model"; GeminiSetup.id md ]).
Proof.
  split; [simpl; tauto |]. split.
  - intros Hnone. unfold buildCliArgs. rewrite Hnone.
    destruct (present (cwd options)); reflexivity.
  - intros md Hin Hmodel.
    destruct (In_available_model md Hin) as [Hprefix [Hsame Hauto]].
    assert (Hne : GeminiSetup.modelString md <> "").
    { intros Hempty. rewrite Hempty in Hprefix. discriminate. }
    unfold buildCliArgs. rewrite Hmodel, (present_some _ Hne).
    rewrite (eqb_false _ "" Hne). rewrite Hsame in *.
    rewrite (eqb_false _ "auto" Hauto), Hprefix.
    destruct (present (cwd options)); reflexivity.
Qed.

Lemma filter_filter {A} (f : A -> bool) (l : list A) :
  filter f (filter f l) = filter f l.
Proof.
  induction l as [| a rest IH]; simpl; [reflexivity |].
  destruct (f a) eqn:Hfa; simpl; [now rewrite Hfa, IH | exact IH].
Qed.

Lemma filter_none {A} (f : A -> bool) (l : list A) :
  Forall (fun a => f a = false) l -> filter f l = [].
Proof.
  induction 1 as [| a rest Ha _ IH]; simpl; [reflexivity | now rewrite Ha].
Qed.

(** X14: of an array prompt only the text blocks with a non-empty text
    count: blocks of another type or without text can be removed without
    changing the prompt text, and an array without any text block gives
    the empty prompt, not an error. *)
Theorem extractPromptText_reads_text_blocks_only (blocks : list PromptBlock)
    (model cwd : option string) :
  let optionsWith prompt := {| prompt := prompt; model := model; cwd := cwd |} in
  extractPromptText (optionsWith (PromptArray blocks))
  = extractPromptText (optionsWith (PromptArray (filter Behaviour.isTextBlock blocks)))
  /\ (Forall (fun p => Behaviour.isTextBlock p = false) blocks ->
      extractPromptText (optionsWith (PromptArray blocks)) = Normal "").
Proof.
  cbv zeta. unfold extractPromptText. simpl. split.
  - unfold Behaviour.isTextBlock.
    now rewrite (filter_filter
      (fun p => (blockType p =? "text") && present (blockText p)) blocks).
  - intros Hnone. unfold Behaviour.isTextBlock in Hnone.
    now rewrite (filter_none _ _ Hnone).
Qed.

End CommandLine.

(* ===================================================================== *)
(** ** Properties of the installation status and the setup routes *)
(* ===================================================================== *)

Section InstallationStatus.

(** [checkAuth] either raises a TypeError, in the one situation
    described by [checkAuthRaises], or answers. *)
Lemma checkAuth_cases (cliPath : option string) (env : Env) (file : SettingsFile) :
  if Behaviour.checkAuthRaises cliPath env file
  then exists msg, checkAuth cliPath env file = Throw (TypeError msg)
  else exists status, checkAuth cliPath env file = Normal status.
Proof.
  unfold Behaviour.checkAuthRaises, Behaviour.hasVertexAi, Behaviour.selectsNonString,
    checkAuth.
  destruct (present cliPath); simpl; [| eexists; reflexivity].
  destruct (present (GEMINI_API_KEY env)); simpl; [eexists; reflexivity |].
  destruct (present (GOOGLE_APPLICATION_CREDENTIALS env)
            || present (GOOGLE_CLOUD_PROJECT env)); simpl; [eexists; reflexivity |].
  destruct (selectedAuthType file) as [[| | b | n | t | items | props] |];
    try (eexists; reflexivity).
  destruct (startsWith t "oauth"); [eexists; reflexivity |].
  destruct (t =? "api-key"); [eexists; reflexivity |].
  destruct ((t =? "code-assist") || (t =? "codeassist")); eexists; reflexivity.
Qed.

(** X15: without a CLI path [detectInstallation] never reports an
    authenticated installation and reports neither path nor version,
    whatever the environment holds (an API key included) and whatever the
    base class says about the installation. *)
Theorem detectInstallation_without_cli (isInstalled : bool)
    (versionCommand : Completion string) (cliPath : option string) (env : Env)
    (file : SettingsFile) :
  present cliPath = false ->
  GeminiSetup.detectInstallation isInstalled versionCommand cliPath env file
  = Normal {| GeminiSetup.installed := isInstalled;
              GeminiSetup.version := None;
              GeminiSetup.path := None;
              GeminiSetup.installMethod := "cli";
              GeminiSetup.statusHasApiKey := present (GEMINI_API_KEY env);
              GeminiSetup.statusAuthenticated := false |}.
Proof.
  intros Hcli.
  unfold GeminiSetup.detectInstallation, GeminiSetup.getVersion, GeminiSetup.orUndefined,
    checkAuth.
  rewrite Hcli. simpl. now destruct isInstalled.
Qed.

(** An API key in the environment, no CLI. *)
Lemma detectInstallation_without_cli_witness :
  GeminiSetup.detectInstallation true (Normal "0.21.0") None
    {| GEMINI_API_KEY := Some "AIza-key"; GOOGLE_APPLICATION_CREDENTIALS := None;
       GOOGLE_CLOUD_PROJECT := None |}
    NoSettingsFile
  = Normal {| GeminiSetup.installed := true;
              GeminiSetup.version := None;
              GeminiSetup.path := None;
              GeminiSetup.installMethod := "cli";
              GeminiSetup.statusHasApiKey := true;
              GeminiSetup.statusAuthenticated := false |}.
Proof.
  exact (detectInstallation_without_cli true (Normal "0.21.0") None
    {| GEMINI_API_KEY := Some "AIza-key"; GOOGLE_APPLICATION_CREDENTIALS := None;
       GOOGLE_CLOUD_PROJECT := None |}
    NoSettingsFile eq_refl).
Defined.

End InstallationStatus.

Section SetupRouteProperties.
Context {fs : SetupRoutes.FileSystem}.
Variable getErrorMessage : Thrown -> string.
Variable projectRoot : string.

(** X16: the status route answers with status 500 in exactly one
    situation: the app is not disconnected and [checkAuth] raises (CLI
    detected, no credentials in the environment, a non-string
    authentication type in the settings file); in every other situation
    it answers with a report. *)
Theorem geminiStatus_fails_exactly (disk : SetupRoutes.Disk)
    (machine : SetupRoutes.Machine) :
  (exists err,
     SetupRoutes.geminiStatusHandler getErrorMessage projectRoot disk machine
     = SetupRoutes.StatusFailed err)
  <-> (SetupRoutes.isGeminiDisconnectedFromApp projectRoot disk = false
       /\ Behaviour.checkAuthRaises (SetupRoutes.cliPath machine)
            (SetupRoutes.env machine) (SetupRoutes.settingsFile machine) = true).
Proof.
  unfold SetupRoutes.geminiStatusHandler.
  destruct (SetupRoutes.isGeminiDisconnectedFromApp projectRoot disk).
  - split; [intros [err H]; discriminate | intros [H _]; discriminate].
  - unfold GeminiSetup.detectInstallation.
    pose proof (checkAuth_cases (SetupRoutes.cliPath machine) (SetupRoutes.env machine)
                  (SetupRoutes.settingsFile machine)) as Hauth.
    destruct (Behaviour.checkAuthRaises _ _ _).
    + destruct Hauth as [msg ->]. simpl.
      split; [intros _; split; reflexivity | intros _; eexists; reflexivity].
    + destruct Hauth as [status ->]. simpl.
      split; [intros [err H]; discriminate | intros [_ H]; discriminate].
Qed.

(** X17: while the app is connected, the CLI detected and an API key in
    the environment, the status route reports the base class's
    installation flag, the CLI path, and an authenticated state with
    method [api_key] and both key flags set, whatever the settings file
    holds. *)
Theorem geminiStatus_reports_api_key (disk : SetupRoutes.Disk)
    (machine : SetupRoutes.Machine) :
  SetupRoutes.isGeminiDisconnectedFromApp projectRoot disk = false ->
  present (SetupRoutes.cliPath machine) = true ->
  present (GEMINI_API_KEY (SetupRoutes.env machine)) = true ->
  exists version,
    SetupRoutes.geminiStatusHandler getErrorMessage projectRoot disk machine
    = SetupRoutes.StatusReport (SetupRoutes.isInstalled machine) version
        (SetupRoutes.cliPath machine)
        {| SetupRoutes.viewAuthenticated := true;
           SetupRoutes.viewMethod := api_key;
           SetupRoutes.viewHasApiKey := true;
           SetupRoutes.viewHasEnvApiKey := Some true;
           SetupRoutes.viewError := None |}
        SetupRoutes.installCommand SetupRoutes.loginCommand.
Proof.
  intros Hconnected Hcli Hkey.
  unfold SetupRoutes.geminiStatusHandler. rewrite Hconnected.
  unfold GeminiSetup.detectInstallation, checkAuth. rewrite Hcli, Hkey. simpl.
  assert (Hpath : GeminiSetup.orUndefined (SetupRoutes.cliPath machine)
                  = SetupRoutes.cliPath machine).
  { unfold GeminiSetup.orUndefined. now rewrite Hcli. }
  rewrite !Hpath. eexists. reflexivity.
Qed.

(** X18: once the deauth route has answered with success, the status
    route reports the fixed disconnected state (installed, not
    authenticated, method none, no path, no version) for every machine,
    an API key in the environment included; this holds on every file
    system where a written file is accessible and joining paths
    nests. *)
Theorem deauth_then_status_is_disconnected (disk : SetupRoutes.Disk)
    (machine : SetupRoutes.Machine) (message : string) :
  SetupRoutes.writtenFilesAreAccessible fs ->
  SetupRoutes.joinIsNested fs ->
  fst (SetupRoutes.deauthGeminiHandler getErrorMessage projectRoot disk)
    = SetupRoutes.ActionOk message ->
  SetupRoutes.geminiStatusHandler getErrorMessage projectRoot
    (snd (SetupRoutes.deauthGeminiHandler getErrorMessage projectRoot disk)) machine
  = SetupRoutes.StatusReport true None None
      {| SetupRoutes.viewAuthenticated := false;
         SetupRoutes.viewMethod := none;
         SetupRoutes.viewHasApiKey := false;
         SetupRoutes.viewHasEnvApiKey := None;
         SetupRoutes.viewError := None |}
      SetupRoutes.installCommand SetupRoutes.loginCommand.
Proof.
  intros Hwritten Hjoin.
  unfold SetupRoutes.deauthGeminiHandler. cbv zeta.
  destruct (SetupRoutes.fsMkdirRecursive disk _) as [[[] | e] disk1];
    [| discriminate].
  destruct (SetupRoutes.fsWriteFile disk1 _ _) as [[[] | e] disk2] eqn:Hwrite;
    [| discriminate].
  intros _. simpl snd.
  unfold SetupRoutes.geminiStatusHandler, SetupRoutes.isGeminiDisconnectedFromApp.
  cbv zeta. rewrite <- Hjoin.
  now rewrite (Hwritten _ _ _ _ Hwrite).
Qed.

(** X19: the auth route always answers with success, also when the
    marker could not be removed; when the removal did succeed, the app
    is connected again afterwards (the status route consults the
    provider), on every file system where an unlinked file is gone and
    joining paths nests. *)
Theorem auth_then_status_is_connected (disk : SetupRoutes.Disk) :
  SetupRoutes.unlinkedFilesAreGone fs ->
  SetupRoutes.joinIsNested fs ->
  fst (SetupRoutes.authGeminiHandler projectRoot disk)
    = SetupRoutes.ActionOk "Gemini CLI connected to app"
  /\ (forall disk',
        SetupRoutes.fsUnlink disk
          (SetupRoutes.pathJoin
             [ projectRoot; ".automaker"; SetupRoutes.DISCONNECTED_MARKER_FILE ])
        = (Normal tt, disk') ->
        snd (SetupRoutes.authGeminiHandler projectRoot disk) = disk'
        /\ SetupRoutes.isGeminiDisconnectedFromApp projectRoot disk' = false).
Proof.
  intros Hgone Hjoin. unfold SetupRoutes.authGeminiHandler. cbv zeta.
  rewrite Hjoin. split.
  - now destruct (SetupRoutes.fsUnlink disk _).
  - intros disk' Hunlink. rewrite Hunlink. split; [reflexivity |].
    unfold SetupRoutes.isGeminiDisconnectedFromApp. cbv zeta.
    now destruct (Hgone _ _ _ Hunlink) as [e ->].
Qed.

End SetupRouteProperties.

Section ListDisk.

Lemma listDisk_written : SetupRoutes.writtenFilesAreAccessible SetupRoutes.listDisk.
Proof.
  intros disk p content disk' Hwrite. simpl in *.
  inversion Hwrite; subst. simpl. now rewrite String.eqb_refl.
Qed.

Lemma existsb_removed (p : string) (disk : list string) :
  existsb (String.eqb p) (filter (fun q => negb (String.eqb p q)) disk) = false.
Proof.
  induction disk as [| q rest IH]; simpl; [reflexivity |].
  destruct (String.eqb p q) eqn:Hpq; simpl; [exact IH | now rewrite Hpq].
Qed.

Lemma listDisk_unlinked : SetupRoutes.unlinkedFilesAreGone SetupRoutes.listDisk.
Proof.
  intros disk p disk' Hunlink. simpl in *.
  destruct (existsb (String.eqb p) disk); [| discriminate].
  inversion Hunlink; subst. rewrite existsb_removed. eexists. reflexivity.
Qed.

Lemma listDisk_join : SetupRoutes.joinIsNested SetupRoutes.listDisk.
Proof.
  intros a b c. simpl. now rewrite append_assoc.
Qed.

End ListDisk.

(** A connected app on a machine with the CLI and a key. *)
Lemma geminiStatus_reports_api_key_witness :
  exists version,
    SetupRoutes.geminiStatusHandler (fs := SetupRoutes.listDisk) messageOf "/srv/app" []
      {| SetupRoutes.cliPath := Some "/usr/local/bin/gemini";
         SetupRoutes.isInstalled := true;
         SetupRoutes.versionCommand := Normal "0.21.0";
         SetupRoutes.env := {| GEMINI_API_KEY := Some "AIza-key";
                               GOOGLE_APPLICATION_CREDENTIALS := None;
                               GOOGLE_CLOUD_PROJECT := None |};
         SetupRoutes.settingsFile := NoSettingsFile |}
    = SetupRoutes.StatusReport true version (Some "/usr/local/bin/gemini")
        {| SetupRoutes.viewAuthenticated := true;
           SetupRoutes.viewMethod := api_key;
           SetupRoutes.viewHasApiKey := true;
           SetupRoutes.viewHasEnvApiKey := Some true;
           SetupRoutes.viewError := None |}
        SetupRoutes.installCommand SetupRoutes.loginCommand.
Proof.
  exact (geminiStatus_reports_api_key (fs := SetupRoutes.listDisk) messageOf "/srv/app" []
    {| SetupRoutes.cliPath := Some "/usr/local/bin/gemini";
       SetupRoutes.isInstalled := true;
       SetupRoutes.versionCommand := Normal "0.21.0";
       SetupRoutes.env := {| GEMINI_API_KEY := Some "AIza-key";
                             GOOGLE_APPLICATION_CREDENTIALS := None;
                             GOOGLE_CLOUD_PROJECT := None |};
       SetupRoutes.settingsFile := NoSettingsFile |}
    eq_refl eq_refl eq_refl).
Defined.

(** Disconnecting on an empty disk, on the same machine. *)
Lemma deauth_then_status_is_disconnected_witness :
  SetupRoutes.geminiStatusHandler (fs := SetupRoutes.listDisk) messageOf "/srv/app"
    (snd (SetupRoutes.deauthGeminiHandler (fs := SetupRoutes.listDisk)
            messageOf "/srv/app" []))
    {| SetupRoutes.cliPath := Some "/usr/local/bin/gemini";
       SetupRoutes.isInstalled := true;
       SetupRoutes.versionCommand := Normal "0.21.0";
       SetupRoutes.env := {| GEMINI_API_KEY := Some "AIza-key";
                             GOOGLE_APPLICATION_CREDENTIALS := None;
                             GOOGLE_CLOUD_PROJECT := None |};
       SetupRoutes.settingsFile := NoSettingsFile |}
  = SetupRoutes.StatusReport true None None
      {| SetupRoutes.viewAuthenticated := false;
         SetupRoutes.viewMethod := none;
         SetupRoutes.viewHasApiKey := false;
         SetupRoutes.viewHasEnvApiKey := None;
         SetupRoutes.viewError := None |}
      SetupRoutes.installCommand SetupRoutes.loginCommand.
Proof.
  exact (deauth_then_status_is_disconnected (fs := SetupRoutes.listDisk)
    messageOf "/srv/app" [] _ "Gemini CLI disconnected from app"
    listDisk_written listDisk_join eq_refl).
Defined.

(** Connecting again after a disconnect. *)
Lemma auth_then_status_is_connected_witness :
  SetupRoutes.isGeminiDisconnectedFromApp (fs := SetupRoutes.listDisk) "/srv/app"
    (snd (SetupRoutes.authGeminiHandler (fs := SetupRoutes.listDisk) "/srv/app"
            [ "/srv/app/.automaker/.gemini-disconnected" ]))
  = false.
Proof.
  refine (match proj2 (auth_then_status_is_connected (fs := SetupRoutes.listDisk)
                         "/srv/app" [ "/srv/app/.automaker/.gemini-disconnected" ]
                         listDisk_unlinked listDisk_join) [] eq_refl
          with conj _ Hconnected => _ end).
  exact Hconnected.
Defined.
